(** * Confluence MCP server: credential resolver, request engine,
      operation surface and response renderer

    A shallow embedding of the TypeScript sources
    ([types/env.ts], [client.ts], [tools/*.ts], [utils/formatters.ts],
    [index.ts])
    together with the properties of the specification that they decide.

    Conventions of the embedding.
    - A JavaScript string is a [string] (its UTF-8 bytes).
    - A JavaScript number is an integer [Z]; [NaN] is the extra value of
      [JsNumber].  Only integral numbers occur in the code modelled here
      (version numbers, limits, day counts, HTTP statuses).
    - [undefined] / [null] for an optional string field is [None].
    - An [async] function is a computation in the monad [M]: it threads the
      log of outbound [fetch] calls and either returns or throws. *)

From Stdlib Require Import String Ascii List ZArith Lia Bool.
From Stdlib Require Import DecimalString.
From Stdlib Require DecimalPos.
Import ListNotations.

Local Set Warnings "-register-all".

Local Open Scope string_scope.
Local Open Scope Z_scope.

(* ===================================================================== *)
(** ** JavaScript values and coercions *)
(* ===================================================================== *)

Module Js.

(** Numbers: integers and [NaN]. *)
Inductive JsNumber : Type :=
| NaN
| Int (z : Z).

(** Values as [JSON.parse] produces them and as the tools pass them on.
    An object is the list of its own properties in their order, each name
    once. *)
Inductive JsValue : Type :=
| JUndefined
| JNull
| JBool (b : bool)
| JNumber (n : JsNumber)
| JString (s : string)
| JArray (items : list JsValue)
| JObject (fields : list (string * JsValue)).

(** [ToBoolean] on strings: only the empty string is falsy. *)
Definition truthyString (s : string) : bool :=
  match s with
  | EmptyString => false
  | String _ _ => true
  end.

(** [ToBoolean] on an optional string ([undefined], [null] are falsy). *)
Definition truthyOpt (o : option string) : bool :=
  match o with
  | None => false
  | Some s => truthyString s
  end.

Definition truthyNumber (n : JsNumber) : bool :=
  match n with
  | NaN => false
  | Int z => negb (z =? 0)
  end.

(** [ToBoolean]. *)
Definition truthy (v : JsValue) : bool :=
  match v with
  | JUndefined | JNull => false
  | JBool b => b
  | JNumber n => truthyNumber n
  | JString s => truthyString s
  | JArray _ | JObject _ => true
  end.

(** [a || b] on values. *)
Definition orElse (a b : JsValue) : JsValue := if truthy a then a else b.

(** [s || d] where [s] is [string | null] and [d] a string. *)
Definition orString (o : option string) (d : string) : string :=
  match o with
  | Some s => if truthyString s then s else d
  | None => d
  end.

(** [s || undefined] where [s] is [string | null]. *)
Definition orUndefined (o : option string) : option string :=
  match o with
  | Some s => if truthyString s then Some s else None
  | None => None
  end.

(** [String(n)] for an integer. *)
Definition stringOfZ (z : Z) : string := NilZero.string_of_int (Z.to_int z).

Definition stringOfNumber (n : JsNumber) : string :=
  match n with
  | NaN => "NaN"
  | Int z => stringOfZ z
  end.

(** [String(b)]. *)
Definition stringOfBool (b : bool) : string :=
  if b then "true" else "false".

(** Own-property lookup in an object literal. *)
Fixpoint lookup (k : string) (fields : list (string * JsValue)) : JsValue :=
  match fields with
  | [] => JUndefined
  | (k', v) :: rest => if String.eqb k k' then v else lookup k rest
  end.

(** [s.includes(t)]. *)
Fixpoint includes (s t : string) : bool :=
  if prefix t s then true
  else match s with
       | EmptyString => false
       | String _ s' => includes s' t
       end.

End Js.

Import Js.

(* ===================================================================== *)
(** ** Credential resolver ([types/env.ts]) *)
(* ===================================================================== *)

(** [interface TenantCredentials]. *)
Record TenantCredentials : Type := mkCredentials {
  domain : string;
  email : string;
  apiToken : string;
  cloudId : option string
}.

(** The request headers, seen through [Headers.get]: [None] is [null]. *)
Definition Headers : Type := string -> option string.

(** [parseTenantCredentials]. *)
Definition parseTenantCredentials (headers : Headers) : TenantCredentials :=
  {| domain := orString (headers "X-Confluence-Domain") "";
     email := orString (headers "X-Confluence-Email") "";
     apiToken := orString (headers "X-Confluence-API-Token") "";
     cloudId := orUndefined (headers "X-Confluence-Cloud-ID") |}.

Definition missingDomainMessage : string :=
  "Missing credentials. Provide X-Confluence-Domain or X-Confluence-Cloud-ID header.".
Definition missingEmailMessage : string :=
  "Missing credentials. Provide X-Confluence-Email header.".
Definition missingApiTokenMessage : string :=
  "Missing credentials. Provide X-Confluence-API-Token header.".

(** [validateCredentials]: [inl msg] is [throw new Error(msg)],
    [inr tt] is the normal return. *)
Definition validateCredentials (credentials : TenantCredentials)
  : string + unit :=
  if negb (truthyString (domain credentials))
     && negb (truthyOpt (cloudId credentials))
  then inl missingDomainMessage
  else if negb (truthyString (email credentials))
  then inl missingEmailMessage
  else if negb (truthyString (apiToken credentials))
  then inl missingApiTokenMessage
  else inr tt.

(** A header that is absent or holds the empty string. *)
Definition absentOrEmpty (h : option string) : Prop :=
  h = None \/ h = Some "".

(** The same headers with every empty value removed. *)
Definition dropEmpty (headers : Headers) : Headers :=
  fun name => orUndefined (headers name).

(* ===================================================================== *)
(** ** Platform string functions *)
(* ===================================================================== *)

(** The quotation mark (code 34) and the backslash (code 92). *)
Definition quoteChar : ascii := "034"%char.
Definition backslashChar : ascii := "092"%char.
Definition quote : string := String quoteChar "".

(** [s.replace(/"/g, '\\"')]: every quotation mark gets a backslash put
    before it. *)
Fixpoint escapeQuotes (s : string) : string :=
  match s with
  | EmptyString => EmptyString
  | String c rest =>
      if Ascii.eqb c quoteChar
      then String backslashChar (String quoteChar (escapeQuotes rest))
      else String c (escapeQuotes rest)
  end.

(** One hexadecimal digit, upper case. *)
Definition hexDigit (n : N) : ascii :=
  if (n <? 10)%N then ascii_of_N (48 + n) else ascii_of_N (55 + n).

(** The bytes that the [application/x-www-form-urlencoded] serializer
    leaves as they are: ASCII letters and digits and [*-._]. *)
Definition formUrlSafe (c : ascii) : bool :=
  let n := N_of_ascii c in
  ((48 <=? n) && (n <=? 57) || (65 <=? n) && (n <=? 90)
   || (97 <=? n) && (n <=? 122)
   || (n =? 42) || (n =? 45) || (n =? 46) || (n =? 95))%N.

(** Serialization of one name or value by [URLSearchParams.toString]:
    a space becomes [+], a safe byte stays, any other byte becomes [%XX]. *)
Fixpoint formUrlEncode (s : string) : string :=
  match s with
  | EmptyString => EmptyString
  | String c rest =>
      let n := N_of_ascii c in
      if (n =? 32)%N then String "+" (formUrlEncode rest)
      else if formUrlSafe c then String c (formUrlEncode rest)
      else String "%" (String (hexDigit (n / 16)) (String (hexDigit (n mod 16))
             (formUrlEncode rest)))
  end.

(** [URLSearchParams]: the list of name-value pairs in insertion order. *)
Definition URLSearchParams : Type := list (string * string).

(** [searchParams.set(name, value)]: the first pair of that name gets the
    value and later pairs of that name go; a new name is appended. *)
Fixpoint searchParamsSet (name value : string) (p : URLSearchParams)
  : URLSearchParams :=
  match p with
  | [] => [(name, value)]
  | (n, v) :: rest =>
      if String.eqb n name
      then (name, value) :: filter (fun nv => negb (String.eqb (fst nv) name)) rest
      else (n, v) :: searchParamsSet name value rest
  end.

(** [searchParams.toString()]. *)
Fixpoint searchParamsToString (p : URLSearchParams) : string :=
  match p with
  | [] => ""
  | [(n, v)] => formUrlEncode n ++ "=" ++ formUrlEncode v
  | (n, v) :: rest =>
      formUrlEncode n ++ "=" ++ formUrlEncode v ++ "&" ++ searchParamsToString rest
  end.

Definition isDigit (c : ascii) : bool :=
  let n := N_of_ascii c in ((48 <=? n) && (n <=? 57))%N.

(** The ASCII white space that [parseInt] skips (tab, line feed, vertical
    tab, form feed, carriage return, space). *)
Definition isWhiteSpace (c : ascii) : bool :=
  let n := N_of_ascii c in ((9 <=? n) && (n <=? 13) || (n =? 32))%N.

Fixpoint skipWhiteSpace (s : string) : string :=
  match s with
  | String c rest => if isWhiteSpace c then skipWhiteSpace rest else s
  | EmptyString => EmptyString
  end.

(** The value of the longest prefix of decimal digits, [None] when the
    string starts with no digit. *)
Fixpoint digitsPrefix (acc : option Z) (s : string) : option Z :=
  match s with
  | String c rest =>
      if isDigit c
      then digitsPrefix
             (Some (10 * match acc with Some a => a | None => 0 end
                    + Z.of_N (N_of_ascii c) - 48)) rest
      else acc
  | EmptyString => acc
  end.

(** [parseInt(s, 10)]: leading white space, an optional sign, then the
    longest run of digits; [NaN] when there is none. *)
Definition parseInt10 (s : string) : JsNumber :=
  let s1 := skipWhiteSpace s in
  let '(sign, s2) :=
    match s1 with
    | String "-" rest => (-1, rest)
    | String "+" rest => (1, rest)
    | _ => (1, s1)
    end in
  match digitsPrefix None s2 with
  | Some n => Int (sign * n)
  | None => NaN
  end.

(* ===================================================================== *)
(** ** Error taxonomy ([utils/errors.ts]) *)
(* ===================================================================== *)

(** Modelled from the spec: the error classes of [utils/errors.ts], whose
    source is not part of the files at hand.  The spec gives the closed set
    of kinds (authentication, forbidden, not-found, rate-limited, generic
    API error); each constructor takes the arguments that [client.ts]
    passes to [new ...Error(...)]. *)
Inductive ApiError : Type :=
| RateLimitError (message : string) (retryAfter : JsNumber)
| AuthenticationError (message : string)
| ForbiddenError (message : string)
| NotFoundError (resource id : string)
| ConfluenceApiError (message : JsValue) (status : Z).



(** What a [throw] or a rejected promise carries: an error of the
    taxonomy, another [Error] (a [TypeError] of [fetch], a [SyntaxError]
    of [JSON.parse], ...) or a value that is no [Error]. *)
Inductive Thrown : Type :=
| ThrownApi (e : ApiError)
| ThrownError (message : string)
| ThrownValue (v : JsValue).

(** Modelled from the spec: what [utils/errors.ts] computes from an error
    of the taxonomy, kept abstract: its [message] and [retryable]
    properties and [formatErrorForLogging]. *)
Class Errors : Type := {
  errorMessage : ApiError -> string;
  retryable : ApiError -> bool;
  formatErrorForLogging : Thrown -> JsValue
}.

(* ===================================================================== *)
(** ** The runtime: network, JSON, base64, clock *)
(* ===================================================================== *)

(** [RequestInit] as the client uses it. *)
Record RequestInit : Type := mkInit {
  method : option string;
  headers : option (list (string * string));
  body : option string
}.

(** [{}]. *)
Definition emptyInit : RequestInit :=
  {| method := None; headers := None; body := None |}.

(** A [Response]: status, headers and the text of the body. *)
Record Response : Type := mkResponse {
  status : Z;
  responseHeaders : Headers;
  bodyText : string
}.

(** One call of [fetch(url, init)]. *)
Record FetchCall : Type := mkCall {
  url : string;
  init : RequestInit
}.

(** The promise [fetch] returns is rejected or resolves to a response. *)
Inductive FetchOutcome : Type :=
| Rejected (t : Thrown)
| Resolved (r : Response).

(** The functions of the JavaScript runtime that the code calls.  A
    result of [None] means that the function throws.
    - [fetch]: the network, the outcome of each call;
    - [JSON_parse]: [JSON.parse], with the message of its [SyntaxError];
    - [JSON_stringify], [JSON_stringify_indent2]: [JSON.stringify(v)] and
      [JSON.stringify(v, null, 2)];
    - [btoa]: base64, which throws on a character above 255, with the
      message of that error;
    - [rangeErrorMessage]: the message of the [RangeError] of
      [toISOString];
    - [Date_now]: the time value of [new Date()], in milliseconds since
      1970-01-01T00:00:00Z;
    - [LocalTZA]: the offset of local time from UTC in milliseconds, taken
      as fixed (a Worker runs in UTC, offset 0). *)
Class Runtime : Type := {
  fetch : FetchCall -> FetchOutcome;
  JSON_parse : string -> option JsValue;
  syntaxErrorMessage : string -> string;
  JSON_stringify : JsValue -> string;
  JSON_stringify_indent2 : JsValue -> string;
  btoa : string -> option string;
  btoaErrorMessage : string -> string;
  rangeErrorMessage : string;
  Date_now : Z;
  LocalTZA : Z
}.

(* ===================================================================== *)
(** ** Asynchronous computations *)
(* ===================================================================== *)

(** How a computation ends. *)
Inductive Result (A : Type) : Type :=
| Return (a : A)
| Throw (t : Thrown).

Arguments Return {A} a.
Arguments Throw {A} t.

(** A computation takes the log of the [fetch] calls made so far and gives
    its result with the log extended by its own calls. *)
Definition M (A : Type) : Type := list FetchCall -> Result A * list FetchCall.

Definition ret {A : Type} (a : A) : M A := fun log => (Return a, log).

Definition throw {A : Type} (t : Thrown) : M A := fun log => (Throw t, log).

Definition bind {A B : Type} (m : M A) (k : A -> M B) : M B :=
  fun log =>
    match m log with
    | (Return a, log') => k a log'
    | (Throw t, log') => (Throw t, log')
    end.

(** [try { m } catch (error) { handler(error) }]. *)
Definition tryCatch {A : Type} (m : M A) (handler : Thrown -> M A) : M A :=
  fun log =>
    match m log with
    | (Return a, log') => (Return a, log')
    | (Throw t, log') => handler t log'
    end.

(** Running a computation from an empty log. *)
Definition run {A : Type} (m : M A) : Result A * list FetchCall := m [].

Declare Scope async_scope.
Delimit Scope async_scope with async.
Notation "x <- m ;; k" := (bind m (fun x => k))
  (at level 61, m at next level, right associativity) : async_scope.
Notation "m ;; k" := (bind m (fun _ => k))
  (at level 61, right associativity) : async_scope.
Local Open Scope async_scope.

(* ===================================================================== *)
(** ** HTTP request engine and operations ([client.ts]) *)
(* ===================================================================== *)

(** The fields of [ConfluenceClientImpl]. *)
Record ConfluenceClientImpl : Type := mkClient {
  credentials : TenantCredentials;
  baseUrl : string;
  searchBaseUrl : string
}.

(** The constructor, that is [createConfluenceClient]. *)
Definition createConfluenceClient (credentials : TenantCredentials)
  : ConfluenceClientImpl :=
  {| credentials := credentials;
     baseUrl := "https://" ++ domain credentials ++ ".atlassian.net/wiki/api/v2";
     searchBaseUrl :=
       "https://" ++ domain credentials ++ ".atlassian.net/wiki/rest/api" |}.

(** [obj[k] = v] on an object given by its list of properties. *)
Fixpoint setProperty (k v : string) (obj : list (string * string))
  : list (string * string) :=
  match obj with
  | [] => [(k, v)]
  | (k', v') :: rest =>
      if String.eqb k k' then (k, v) :: rest
      else (k', v') :: setProperty k v rest
  end.

(** [{...a, ...b}]. *)
Definition spread (a b : list (string * string)) : list (string * string) :=
  fold_left (fun acc kv => setProperty (fst kv) (snd kv) acc) b a.

(** [response.ok]. *)
Definition ok (response : Response) : bool :=
  (200 <=? status response) && (status response <=? 299).

(** [v.k] for a value [v] that is neither [undefined] nor [null], at one
    of the names that the code reads ([message], [error], [errors],
    [results], [_links], [next]): only an object can have such a property,
    arrays and primitive values have none of them. *)
Definition getMember (v : JsValue) (k : string) : JsValue :=
  match v with
  | JObject fields => lookup k fields
  | _ => JUndefined
  end.

(** [v?.[0]]. *)
Definition optionalIndex0 (v : JsValue) : JsValue :=
  match v with
  | JUndefined | JNull => JUndefined
  | JArray items => match items with [] => JUndefined | x :: _ => x end
  | JString s =>
      match s with
      | EmptyString => JUndefined
      | String c _ => JString (String c "")
      end
  | JObject fields => lookup "0" fields
  | JBool _ | JNumber _ => JUndefined
  end.

(** [v?.k]. *)
Definition optionalMember (v : JsValue) (k : string) : JsValue :=
  match v with
  | JUndefined | JNull => JUndefined
  | _ => getMember v k
  end.

(** The body of the [try] in [request]:
    [errorJson.message || errorJson.error || errorJson.errors?.[0]?.message
     || message]; [None] when reading a property of [null] throws. *)
Definition extractMessage (errorJson message : JsValue) : option JsValue :=
  match errorJson with
  | JUndefined | JNull => None
  | _ =>
      Some (orElse (getMember errorJson "message")
           (orElse (getMember errorJson "error")
           (orElse (optionalMember
                      (optionalIndex0 (getMember errorJson "errors")) "message")
                   message)))
  end.

(** The result of [testConnection]. *)
Record ConnectionStatus : Type := mkStatus {
  connected : bool;
  message : string
}.

Section Client.

Context {runtime : Runtime}.

(** [await fetch(url, init)]: the call is logged. *)
Definition awaitFetch (url : string) (init : RequestInit) : M Response :=
  fun log =>
    let call := {| url := url; init := init |} in
    (match fetch call with
     | Rejected t => Throw t
     | Resolved r => Return r
     end, (log ++ [call])%list).

(** [await response.json()]. *)
Definition json (response : Response) : M JsValue :=
  match JSON_parse (bodyText response) with
  | Some v => ret v
  | None => throw (ThrownError (syntaxErrorMessage (bodyText response)))
  end.

(** [getAuthHeaders]; [btoa] may throw. *)
Definition getAuthHeaders (this : ConfluenceClientImpl)
  : M (list (string * string)) :=
  let plain := email (credentials this) ++ ":" ++ apiToken (credentials this) in
  match btoa plain with
  | Some encoded =>
      ret [("Authorization", "Basic " ++ encoded);
           ("Content-Type", "application/json");
           ("Accept", "application/json")]
  | None => throw (ThrownError (btoaErrorMessage plain))
  end.

(** [request]. *)
Definition request (this : ConfluenceClientImpl) (endpoint : string)
  (options : RequestInit) (useSearchApi : bool) : M JsValue :=
  let base := if useSearchApi then searchBaseUrl this else baseUrl this in
  let url := base ++ endpoint in
  auth <- getAuthHeaders this ;;
  response <- awaitFetch url
    {| method := method options;
       headers := Some (spread auth
                          (match headers options with Some h => h | None => [] end));
       body := body options |} ;;
  if status response =? 429 then
    let retryAfter := responseHeaders response "Retry-After" in
    throw (ThrownApi (RateLimitError "Rate limit exceeded"
             (match retryAfter with
              | Some s => if truthyString s then parseInt10 s else Int 60
              | None => Int 60
              end)))
  else if status response =? 401 then
    throw (ThrownApi (AuthenticationError
                        "Authentication failed. Check your credentials."))
  else if status response =? 403 then
    throw (ThrownApi (ForbiddenError "Access denied. Check your permissions."))
  else if status response =? 404 then
    throw (ThrownApi (NotFoundError "Resource" endpoint))
  else if negb (ok response) then
    let errorBody := bodyText response in
    let message := JString ("API error: " ++ stringOfZ (status response)) in
    let message :=
      match JSON_parse errorBody with
      | Some errorJson =>
          match extractMessage errorJson message with
          | Some m => m
          | None => message
          end
      | None => message
      end in
    throw (ThrownApi (ConfluenceApiError message (status response)))
  else if status response =? 204 then ret JUndefined
  else json response.


Context {errors : Errors}.

(** [error instanceof Error ? error.message : fallback]: the errors of the
    taxonomy and the errors of the runtime are instances of [Error]. *)
Definition messageOr (error : Thrown) (fallback : string) : string :=
  match error with
  | ThrownApi e => errorMessage e
  | ThrownError m => m
  | ThrownValue _ => fallback
  end.

(** [testConnection]. *)
Definition testConnection (this : ConfluenceClientImpl) : M ConnectionStatus :=
  tryCatch
    (request this "/spaces?limit=1" emptyInit false ;;
     ret {| connected := true;
            message := "Successfully connected to Confluence" |})
    (fun error =>
       ret {| connected := false;
              message := messageOr error "Connection failed" |}).

(** The options of a write: [{ method, body: JSON.stringify(input) }]. *)
Definition writeInit (verb : string) (input : JsValue) : RequestInit :=
  {| method := Some verb; headers := None; body := Some (JSON_stringify input) |}.

(** [updatePage]. *)
Definition updatePage (this : ConfluenceClientImpl) (pageId : string)
  (input : JsValue) : M JsValue :=
  request this ("/pages/" ++ pageId) (writeInit "PUT" input) false.

(** [deletePage]; the caller's [purge] is [undefined] or a boolean, and
    [undefined] takes the default [false]. *)
Definition deletePage (this : ConfluenceClientImpl) (pageId : string)
  (purge : option bool) : M unit :=
  let purge := match purge with Some b => b | None => false end in
  let query := if purge then "?purge=true" else "" in
  request this ("/pages/" ++ pageId ++ query)
    {| method := Some "DELETE"; headers := None; body := None |} false ;;
  ret tt.

(** [updatePageProperty]. *)
Definition updatePageProperty (this : ConfluenceClientImpl)
  (pageId propertyKey : string) (input : JsValue) : M JsValue :=
  request this ("/pages/" ++ pageId ++ "/properties/" ++ propertyKey)
    (writeInit "PUT" input) false.

(** [updateBlogPost]. *)
Definition updateBlogPost (this : ConfluenceClientImpl) (blogPostId : string)
  (input : JsValue) : M JsValue :=
  request this ("/blogposts/" ++ blogPostId) (writeInit "PUT" input) false.

(** [updateComment]. *)
Definition updateComment (this : ConfluenceClientImpl) (commentId : string)
  (input : JsValue) : M JsValue :=
  request this ("/comments/" ++ commentId) (writeInit "PUT" input) false.

(** [updateCustomContent]. *)
Definition updateCustomContent (this : ConfluenceClientImpl)
  (customContentId : string) (input : JsValue) : M JsValue :=
  request this ("/custom-content/" ++ customContentId)
    (writeInit "PUT" input) false.

(** [updateSpaceProperty]. *)
Definition updateSpaceProperty (this : ConfluenceClientImpl)
  (spaceId propertyKey : string) (input : JsValue) : M JsValue :=
  request this ("/spaces/" ++ spaceId ++ "/properties/" ++ propertyKey)
    (writeInit "PUT" input) false.

(** The second argument of [search]. *)
Record SearchParams : Type := mkSearchParams {
  limit : option Z;
  cursor : option string;
  excerpt : option bool
}.

(** [search]: the one operation that goes to the legacy base. *)
Definition search (this : ConfluenceClientImpl) (cql : string)
  (params : option SearchParams) : M JsValue :=
  let searchParams := searchParamsSet "cql" cql [] in
  let searchParams :=
    match params with
    | Some {| limit := Some n |} =>
        if negb (n =? 0) then searchParamsSet "limit" (stringOfZ n) searchParams
        else searchParams
    | _ => searchParams
    end in
  let searchParams :=
    match params with
    | Some {| cursor := Some c |} =>
        if truthyString c then searchParamsSet "cursor" c searchParams
        else searchParams
    | _ => searchParams
    end in
  let searchParams :=
    match params with
    | Some {| excerpt := Some e |} =>
        searchParamsSet "excerpt" (stringOfBool e) searchParams
    | _ => searchParams
    end in
  request this ("/search?" ++ searchParamsToString searchParams) emptyInit true.

End Client.

(* ===================================================================== *)
(** ** Dates: the abstract operations of the language's [Date] *)
(* ===================================================================== *)

Module EsDate.

Definition msPerDay : Z := 86400000.
Definition msPerHour : Z := 3600000.
Definition msPerMinute : Z := 60000.
Definition msPerSecond : Z := 1000.

Definition Day (t : Z) : Z := t / msPerDay.
Definition TimeWithinDay (t : Z) : Z := t mod msPerDay.

(** The day number of the first day of year [y]. *)
Definition DayFromYear (y : Z) : Z :=
  365 * (y - 1970) + (y - 1969) / 4 - (y - 1901) / 100 + (y - 1601) / 400.

Definition DaysInYear (y : Z) : Z :=
  if negb (y mod 4 =? 0) then 365
  else if negb (y mod 100 =? 0) then 366
  else if negb (y mod 400 =? 0) then 365
  else 366.

(** The largest year whose first day is not after [t]; found from an
    estimate that is off by one year at most. *)
Definition YearFromTime (t : Z) : Z :=
  let d := Day t in
  let y := 1970 + (400 * d) / 146097 in
  if DayFromYear (y + 1) <=? d then y + 1
  else if d <? DayFromYear y then y - 1
  else y.

Definition InLeapYear (t : Z) : Z :=
  if DaysInYear (YearFromTime t) =? 366 then 1 else 0.

Definition DayWithinYear (t : Z) : Z := Day t - DayFromYear (YearFromTime t).

(** The day within the year on which month [m] (0 to 11) starts. *)
Definition monthStart (m leap : Z) : Z :=
  if m =? 0 then 0
  else if m =? 1 then 31
  else if m =? 2 then 59 + leap
  else if m =? 3 then 90 + leap
  else if m =? 4 then 120 + leap
  else if m =? 5 then 151 + leap
  else if m =? 6 then 181 + leap
  else if m =? 7 then 212 + leap
  else if m =? 8 then 243 + leap
  else if m =? 9 then 273 + leap
  else if m =? 10 then 304 + leap
  else 334 + leap.

Definition MonthFromTime (t : Z) : Z :=
  let d := DayWithinYear t in
  let leap := InLeapYear t in
  if d <? 31 then 0
  else if d <? 59 + leap then 1
  else if d <? 90 + leap then 2
  else if d <? 120 + leap then 3
  else if d <? 151 + leap then 4
  else if d <? 181 + leap then 5
  else if d <? 212 + leap then 6
  else if d <? 243 + leap then 7
  else if d <? 273 + leap then 8
  else if d <? 304 + leap then 9
  else if d <? 334 + leap then 10
  else 11.

Definition DateFromTime (t : Z) : Z :=
  DayWithinYear t - monthStart (MonthFromTime t) (InLeapYear t) + 1.

Definition HourFromTime (t : Z) : Z := (t / msPerHour) mod 24.
Definition MinFromTime (t : Z) : Z := (t / msPerMinute) mod 60.
Definition SecFromTime (t : Z) : Z := (t / msPerSecond) mod 60.
Definition msFromTime (t : Z) : Z := t mod msPerSecond.

(** [MakeDay(year, month, date)]: the day number of the first of the month,
    plus [date - 1]. *)
Definition MakeDay (year month date : Z) : Z :=
  let ym := year + month / 12 in
  let mn := month mod 12 in
  let leap := if DaysInYear ym =? 366 then 1 else 0 in
  DayFromYear ym + monthStart mn leap + date - 1.

Definition MakeDate (day time : Z) : Z := day * msPerDay + time.

(** [TimeClip]: [None] is [NaN]. *)
Definition TimeClip (t : Z) : option Z :=
  if Z.abs t <=? 8640000000000000 then Some t else None.

(** A [Date] object: its time value, [None] for [NaN]. *)
Definition Date : Type := option Z.

(** [date.getDate()] in a zone [tza] milliseconds east of UTC. *)
Definition getDate (tza : Z) (date : Date) : JsNumber :=
  match date with
  | Some t => Int (DateFromTime (t + tza))
  | None => NaN
  end.

(** [date.setDate(dt)]: the date after the call. *)
Definition setDate (tza : Z) (date : Date) (dt : JsNumber) : Date :=
  match date, dt with
  | Some t0, Int n =>
      let t := t0 + tza in
      let newDate :=
        MakeDate (MakeDay (YearFromTime t) (MonthFromTime t) n) (TimeWithinDay t) in
      TimeClip (newDate - tza)
  | _, _ => None
  end.

Definition digitChar (d : Z) : ascii := ascii_of_N (48 + Z.to_N (d mod 10)).

(** The last [n] decimal digits of [z], with leading zeros. *)
Fixpoint padDigits (n : nat) (z : Z) : string :=
  match n with
  | O => ""
  | S n' => padDigits n' (z / 10) ++ String (digitChar z) ""
  end.

(** The year of [toISOString]: four digits from 0 to 9999, a sign and six
    digits otherwise. *)
Definition isoYear (y : Z) : string :=
  if (0 <=? y) && (y <=? 9999) then padDigits 4 y
  else (if y <? 0 then "-" else "+") ++ padDigits 6 (Z.abs y).

(** [YYYY-MM-DD] of a time value. *)
Definition isoDate (t : Z) : string :=
  isoYear (YearFromTime t) ++ "-" ++ padDigits 2 (MonthFromTime t + 1)
  ++ "-" ++ padDigits 2 (DateFromTime t).

(** [date.toISOString()]; [None] when it throws a [RangeError]. *)
Definition toISOString (date : Date) : option string :=
  match date with
  | Some t =>
      Some (isoDate t ++ "T" ++ padDigits 2 (HourFromTime t) ++ ":"
            ++ padDigits 2 (MinFromTime t) ++ ":" ++ padDigits 2 (SecFromTime t)
            ++ "." ++ padDigits 3 (msFromTime t) ++ "Z")
  | None => None
  end.

End EsDate.

(** [s.split(c)[0]]: what stands before the first [c]. *)
Fixpoint splitFirst (c : ascii) (s : string) : string :=
  match s with
  | EmptyString => EmptyString
  | String a rest => if Ascii.eqb a c then EmptyString else String a (splitFirst c rest)
  end.

(** [a - b] on numbers. *)
Definition minus (a b : JsNumber) : JsNumber :=
  match a, b with
  | Int x, Int y => Int (x - y)
  | _, _ => NaN
  end.

(* ===================================================================== *)
(** ** Response renderer ([utils/formatters.ts]) *)
(* ===================================================================== *)

(** [interface ToolResponse]: the texts of the content blocks and the
    error flag ([false] when the property is left out). *)
Record ToolResponse : Type := mkToolResponse {
  content : list string;
  isError : bool
}.

Inductive ResponseFormat : Type :=
| FormatJson
| FormatMarkdown.

(** The row layouts of the renderer and its rendering of single values.
    They are kept abstract: they print dates in the locale of the runtime
    ([toLocaleDateString]) and coerce arbitrary values to text. *)
Class Renderers : Type := {
  formatSpacesTable : list JsValue -> string;
  formatPagesTable : list JsValue -> string;
  formatBlogPostsTable : list JsValue -> string;
  formatCommentsTable : list JsValue -> string;
  formatAttachmentsTable : list JsValue -> string;
  formatLabelsTable : list JsValue -> string;
  formatTasksTable : list JsValue -> string;
  formatUsersTable : list JsValue -> string;
  formatSearchResultsTable : list JsValue -> string;
  formatGenericTable : list JsValue -> string;
  formatObjectAsMarkdown : JsValue -> string -> string;
  stringOfValue : JsValue -> string
}.

Definition newline : string := String "010"%char "".

(** [lines.join('\n')]. *)
Definition joinLines (lines : list string) : string := String.concat newline lines.

(** [c.toUpperCase()] for an ASCII character. *)
Definition toUpperCase (c : ascii) : ascii :=
  let n := N_of_ascii c in
  if ((97 <=? n) && (n <=? 122))%N then ascii_of_N (n - 32) else c.

(** [capitalize]; the entity types passed to it are ASCII words. *)
Definition capitalize (str : string) : string :=
  match str with
  | EmptyString => EmptyString
  | String c rest => String (toUpperCase c) rest
  end.

(** [isPaginatedResponse]. *)
Definition isPaginatedResponse (data : JsValue) : bool :=
  match data with
  | JObject fields =>
      match lookup "results" fields with
      | JArray _ => true
      | _ => false
      end
  | _ => false
  end.

(** [data.results] of a value that passed [isPaginatedResponse]. *)
Definition resultsOf (data : JsValue) : list JsValue :=
  match getMember data "results" with
  | JArray items => items
  | _ => []
  end.

(** [!!data._links?.next]. *)
Definition hasMore (data : JsValue) : bool :=
  truthy (optionalMember (getMember data "_links") "next").

Definition moreAvailableLine : string := "**More available:** Yes".
Definition noItemsLine : string := "_No items found._".

Section Formatters.

Context {runtime : Runtime} {errors : Errors} {renderers : Renderers}.

(** The [switch] of [formatPaginatedAsMarkdown]. *)
Definition formatTable (entityType : string) (results : list JsValue) : string :=
  if String.eqb entityType "spaces" then formatSpacesTable results
  else if String.eqb entityType "pages" then formatPagesTable results
  else if String.eqb entityType "blogposts" then formatBlogPostsTable results
  else if String.eqb entityType "comments" then formatCommentsTable results
  else if String.eqb entityType "attachments" then formatAttachmentsTable results
  else if String.eqb entityType "labels" then formatLabelsTable results
  else if String.eqb entityType "tasks" then formatTasksTable results
  else if String.eqb entityType "users" then formatUsersTable results
  else if String.eqb entityType "search" then formatSearchResultsTable results
  else formatGenericTable results.

(** The array [lines] of [formatPaginatedAsMarkdown] when it returns. *)
Definition paginatedLines (data : JsValue) (entityType : string) : list string :=
  let results := resultsOf data in
  let count := Z.of_nat (List.length results) in
  let lines := ["## " ++ capitalize entityType; ""; "**Showing:** " ++ stringOfZ count] in
  let lines := if hasMore data then (lines ++ [moreAvailableLine])%list else lines in
  let lines := (lines ++ [""])%list in
  if count =? 0 then (lines ++ [noItemsLine])%list
  else (lines ++ [formatTable entityType results])%list.

(** [formatPaginatedAsMarkdown]. *)
Definition formatPaginatedAsMarkdown (data : JsValue) (entityType : string) : string :=
  joinLines (paginatedLines data entityType).

(** [formatAsMarkdown]. *)
Definition formatAsMarkdown (data : JsValue) (entityType : string) : string :=
  if isPaginatedResponse data then formatPaginatedAsMarkdown data entityType
  else match data with
       | JArray items => formatGenericTable items
       | JObject _ => formatObjectAsMarkdown data entityType
       | _ => stringOfValue data
       end.

(** [formatResponse]. *)
Definition formatResponse (data : JsValue) (format : ResponseFormat)
  (entityType : string) : ToolResponse :=
  match format with
  | FormatMarkdown =>
      {| content := [formatAsMarkdown data entityType]; isError := false |}
  | FormatJson =>
      {| content := [JSON_stringify_indent2 data]; isError := false |}
  end.

(** [formatError]. *)
Definition formatError (error : Thrown) : ToolResponse :=
  let errorInfo := formatErrorForLogging error in
  let message :=
    match error with
    | ThrownApi e =>
        "Error: " ++ errorMessage e ++ (if retryable e then " (retryable)" else "")
    | ThrownError m => "Error: " ++ m
    | ThrownValue v => "Error: " ++ stringOfValue v
    end in
  {| content :=
       [JSON_stringify_indent2
          (JObject [("error", JString message); ("details", errorInfo)])];
     isError := true |}.

End Formatters.

(* ===================================================================== *)
(** ** Tool handlers ([tools/pages.ts], [blogposts.ts], [comments.ts],
       [spaces.ts], [search.ts]) *)
(* ===================================================================== *)

(** An optional string argument as a property value. *)
Definition optionalString (o : option string) : JsValue :=
  match o with
  | Some s => JString s
  | None => JUndefined
  end.

(** [{ representation, value }]. *)
Definition contentBody (representation value : string) : JsValue :=
  JObject [("representation", JString representation); ("value", JString value)].

(** The [cql] that [confluence_search_pages] builds. *)
Definition searchPagesCql (query : string) (spaceKey : option string) : string :=
  let cql := "type=page AND text ~ " ++ quote ++ escapeQuotes query ++ quote in
  if truthyOpt spaceKey
  then cql ++ " AND space.key=" ++ quote
       ++ match spaceKey with Some k => k | None => "" end ++ quote
  else cql.

(** The [cql] that [confluence_search_by_label] builds. *)
Definition searchByLabelCql (label : string) (contentType spaceKey : option string)
  : string :=
  let cql := "label=" ++ quote ++ escapeQuotes label ++ quote in
  let cql :=
    if truthyOpt contentType
    then cql ++ " AND type=" ++ match contentType with Some t => t | None => "" end
    else cql in
  if truthyOpt spaceKey
  then cql ++ " AND space.key=" ++ quote
       ++ match spaceKey with Some k => k | None => "" end ++ quote
  else cql.

(** The [dateStr] of [confluence_search_recent] at time value [now] in a
    zone [tza] milliseconds east of UTC:
    [date = new Date(); date.setDate(date.getDate() - days);
     date.toISOString().split('T')[0]]; [None] when [toISOString] throws. *)
Definition recentDateStr (now tza days : Z) : option string :=
  let date : EsDate.Date := Some now in
  let date := EsDate.setDate tza date (minus (EsDate.getDate tza date) (Int days)) in
  match EsDate.toISOString date with
  | Some iso => Some (splitFirst "T" iso)
  | None => None
  end.

(** The [cql] that [confluence_search_recent] builds from [dateStr]. *)
Definition searchRecentCql (dateStr : string) (contentType spaceKey : option string)
  : string :=
  let cql := "lastModified >= " ++ quote ++ dateStr ++ quote in
  let cql :=
    if truthyOpt contentType
    then cql ++ " AND type=" ++ match contentType with Some t => t | None => "" end
    else cql ++ " AND (type=page OR type=blogpost)" in
  let cql :=
    if truthyOpt spaceKey
    then cql ++ " AND space.key=" ++ quote
         ++ match spaceKey with Some k => k | None => "" end ++ quote
    else cql in
  cql ++ " ORDER BY lastModified DESC".

Section Tools.

Context {runtime : Runtime} {errors : Errors} {renderers : Renderers}.

Variable client : ConfluenceClientImpl.

(** The text block [JSON.stringify({ success: true, message, [name]: value },
    null, 2)] of a write tool. *)
Definition successResponse (message name : string) (value : JsValue) : ToolResponse :=
  {| content :=
       [JSON_stringify_indent2
          (JObject [("success", JBool true); ("message", JString message);
                    (name, value)])];
     isError := false |}.

(** Every handler is [try { ... } catch (error) { return formatError(error) }]. *)
Definition handler (action : M ToolResponse) : M ToolResponse :=
  tryCatch action (fun error => ret (formatError error)).

(** [confluence_update_page]. *)
Definition confluence_update_page (pageId title body bodyRepresentation : string)
  (version : Z) (versionMessage status : option string) : M ToolResponse :=
  handler
    (page <- updatePage client pageId
       (JObject [("id", JString pageId);
                 ("title", JString title);
                 ("body", contentBody bodyRepresentation body);
                 ("version", JObject [("number", JNumber (Int (version + 1)));
                                      ("message", optionalString versionMessage)]);
                 ("status", optionalString status)]) ;;
     ret (successResponse "Page updated" "page" page)).

(** [confluence_delete_page]. *)
Definition confluence_delete_page (pageId : string) (purge : bool) : M ToolResponse :=
  handler
    (deletePage client pageId (Some purge) ;;
     ret {| content :=
              [JSON_stringify_indent2
                 (JObject [("success", JBool true);
                           ("message",
                            JString (if purge
                                     then "Page " ++ pageId ++ " permanently deleted"
                                     else "Page " ++ pageId ++ " moved to trash"))])];
            isError := false |}).

(** [confluence_update_page_property]. *)
Definition confluence_update_page_property (pageId propertyKey : string)
  (value : JsValue) (version : Z) : M ToolResponse :=
  handler
    (property <- updatePageProperty client pageId propertyKey
       (JObject [("key", JString propertyKey);
                 ("value", value);
                 ("version", JObject [("number", JNumber (Int version))])]) ;;
     ret (successResponse "Property updated" "property" property)).

(** [confluence_update_blogpost]. *)
Definition confluence_update_blogpost (blogPostId title body bodyRepresentation : string)
  (version : Z) (versionMessage status : option string) : M ToolResponse :=
  handler
    (blogPost <- updateBlogPost client blogPostId
       (JObject [("id", JString blogPostId);
                 ("title", JString title);
                 ("body", contentBody bodyRepresentation body);
                 ("version", JObject [("number", JNumber (Int (version + 1)));
                                      ("message", optionalString versionMessage)]);
                 ("status", optionalString status)]) ;;
     ret (successResponse "Blog post updated" "blogPost" blogPost)).

(** [confluence_update_comment]. *)
Definition confluence_update_comment (commentId body bodyRepresentation : string)
  (version : Z) (versionMessage : option string) : M ToolResponse :=
  handler
    (comment <- updateComment client commentId
       (JObject [("body", contentBody bodyRepresentation body);
                 ("version", JObject [("number", JNumber (Int (version + 1)));
                                      ("message", optionalString versionMessage)])]) ;;
     ret (successResponse "Comment updated" "comment" comment)).

(** [confluence_update_custom_content]. *)
Definition confluence_update_custom_content (customContentId : string)
  (title body bodyRepresentation : option string) (version : Z)
  (status : option string) : M ToolResponse :=
  handler
    (customContent <- updateCustomContent client customContentId
       (JObject [("id", JString customContentId);
                 ("title", optionalString title);
                 ("body",
                  match body, bodyRepresentation with
                  | Some b, Some r =>
                      if truthyString b && truthyString r then contentBody r b
                      else JUndefined
                  | _, _ => JUndefined
                  end);
                 ("version", JObject [("number", JNumber (Int (version + 1)))]);
                 ("status", optionalString status)]) ;;
     ret (successResponse "Custom content updated" "customContent" customContent)).

(** [confluence_update_space_property]. *)
Definition confluence_update_space_property (spaceId propertyKey : string)
  (value : JsValue) (version : Z) : M ToolResponse :=
  handler
    (property <- updateSpaceProperty client spaceId propertyKey
       (JObject [("value", value);
                 ("version", JObject [("number", JNumber (Int version))])]) ;;
     ret (successResponse "Property updated" "property" property)).

(** [confluence_search_pages]. *)
Definition confluence_search_pages (query : string) (spaceKey : option string)
  (limit : Z) (format : ResponseFormat) : M ToolResponse :=
  handler
    (result <- search client (searchPagesCql query spaceKey)
       (Some {| limit := Some limit; cursor := None; excerpt := Some true |}) ;;
     ret (formatResponse result format "search")).

(** [confluence_search_by_label]. *)
Definition confluence_search_by_label (label : string)
  (contentType spaceKey : option string) (limit : Z) (format : ResponseFormat)
  : M ToolResponse :=
  handler
    (result <- search client (searchByLabelCql label contentType spaceKey)
       (Some {| limit := Some limit; cursor := None; excerpt := Some true |}) ;;
     ret (formatResponse result format "search")).

(** [confluence_search_recent]. *)
Definition confluence_search_recent (days : Z) (contentType spaceKey : option string)
  (limit : Z) (format : ResponseFormat) : M ToolResponse :=
  handler
    (match recentDateStr Date_now LocalTZA days with
     | None => throw (ThrownError rangeErrorMessage)
     | Some dateStr =>
         result <- search client (searchRecentCql dateStr contentType spaceKey)
           (Some {| limit := Some limit; cursor := None; excerpt := Some true |}) ;;
         ret (formatResponse result format "search")
     end).

End Tools.

(* ===================================================================== *)
(** ** The other operations of the client ([client.ts]) *)
(* ===================================================================== *)

(** [String(v)], as a template literal and [URLSearchParams.set] apply it:
    an array is its elements joined by commas, [null] and [undefined]
    elements being empty; an object is [[object Object]]. *)
Fixpoint toStringValue (v : JsValue) : string :=
  match v with
  | JUndefined => "undefined"
  | JNull => "null"
  | JBool b => stringOfBool b
  | JNumber n => stringOfNumber n
  | JString s => s
  | JArray items =>
      (fix elements (l : list JsValue) : string :=
         match l with
         | [] => ""
         | [x] =>
             match x with JUndefined | JNull => "" | _ => toStringValue x end
         | x :: rest =>
             match x with JUndefined | JNull => "" | _ => toStringValue x end
             ++ "," ++ elements rest
         end) items
  | JObject _ => "[object Object]"
  end.

(** The argument [params] of a list operation: the object given by the
    caller, as the list of its properties. *)
Definition Params : Type := list (string * JsValue).

(** One round of the loop of [buildQueryString]. *)
Definition addQueryParam (searchParams : URLSearchParams) (entry : string * JsValue)
  : URLSearchParams :=
  let '(key, value) := entry in
  match value with
  | JUndefined | JNull => searchParams
  | _ =>
      if String.eqb key "bodyFormat" && truthy value
      then searchParamsSet "body-format" (toStringValue value) searchParams
      else searchParamsSet key (toStringValue value) searchParams
  end.

(** [buildQueryString]. *)
Definition buildQueryString (params : Params) : string :=
  let searchParams := fold_left addQueryParam params [] in
  let queryString := searchParamsToString searchParams in
  if truthyString queryString then "?" ++ queryString else "".

(** The message of the [TypeError] that reading a property of [undefined]
    or [null] throws. *)
Class RuntimeErrors : Type := {
  typeErrorMessage : string
}.

Section ClientSurface.

Context {runtime : Runtime} {runtimeErrors : RuntimeErrors}.

(** [return response.results]. *)
Definition resultsOfResponse (response : JsValue) : M JsValue :=
  match response with
  | JUndefined | JNull => throw (ThrownError typeErrorMessage)
  | _ => ret (getMember response "results")
  end.

(** [listSpaces]. *)
Definition listSpaces (this : ConfluenceClientImpl)
  (params : option Params) : M JsValue :=
  let query := buildQueryString (match params with Some p => p | None => [] end) in
  request this ("/spaces" ++ query) emptyInit false.

(** [getSpace]. *)
Definition getSpace (this : ConfluenceClientImpl) (spaceId : string) : M JsValue :=
  request this ("/spaces/" ++ spaceId) emptyInit false.

(** [createSpace]. *)
Definition createSpace (this : ConfluenceClientImpl) (input : JsValue) : M JsValue :=
  request this ("/spaces") (writeInit "POST" input) false.

(** [deleteSpace]. *)
Definition deleteSpace (this : ConfluenceClientImpl) (spaceId : string) : M unit :=
  request this ("/spaces/" ++ spaceId)
    {| method := Some "DELETE"; headers := None; body := None |} false ;;
  ret tt.

(** [listPages]. *)
Definition listPages (this : ConfluenceClientImpl)
  (params : option Params) : M JsValue :=
  let query := buildQueryString (match params with Some p => p | None => [] end) in
  request this ("/pages" ++ query) emptyInit false.

(** [getPage]. *)
Definition getPage (this : ConfluenceClientImpl)
  (pageId : string) (bodyFormat : option string) : M JsValue :=
  let query :=
    if truthyOpt bodyFormat
    then "?body-format=" ++ match bodyFormat with Some f => f | None => "" end
    else "" in
  request this ("/pages/" ++ pageId ++ query) emptyInit false.

(** [createPage]. *)
Definition createPage (this : ConfluenceClientImpl) (input : JsValue) : M JsValue :=
  request this ("/pages") (writeInit "POST" input) false.

(** [getPagesBySpaceId]. *)
Definition getPagesBySpaceId (this : ConfluenceClientImpl)
  (spaceId : string) (params : option Params) : M JsValue :=
  let query := buildQueryString (match params with Some p => p | None => [] end) in
  request this ("/spaces/" ++ spaceId ++ "/pages" ++ query) emptyInit false.

(** [getPageChildren]. *)
Definition getPageChildren (this : ConfluenceClientImpl)
  (pageId : string) (params : option Params) : M JsValue :=
  let query := buildQueryString (match params with Some p => p | None => [] end) in
  request this ("/pages/" ++ pageId ++ "/children" ++ query) emptyInit false.

(** [getPageAncestors]. *)
Definition getPageAncestors (this : ConfluenceClientImpl)
  (pageId : string) : M JsValue :=
  response <- request this ("/pages/" ++ pageId ++ "/ancestors") emptyInit false ;;
  resultsOfResponse response.

(** [getPageDescendants]. *)
Definition getPageDescendants (this : ConfluenceClientImpl)
  (pageId : string) (params : option Params) : M JsValue :=
  let query := buildQueryString (match params with Some p => p | None => [] end) in
  request this ("/pages/" ++ pageId ++ "/descendants" ++ query) emptyInit false.

(** [getPageLabels]. *)
Definition getPageLabels (this : ConfluenceClientImpl)
  (pageId : string) (params : option Params) : M JsValue :=
  let query := buildQueryString (match params with Some p => p | None => [] end) in
  request this ("/pages/" ++ pageId ++ "/labels" ++ query) emptyInit false.

(** [addPageLabels]. *)
Definition addPageLabels (this : ConfluenceClientImpl)
  (pageId : string) (labels : JsValue) : M JsValue :=
  response <- request this ("/pages/" ++ pageId ++ "/labels")
      (writeInit "POST" labels) false ;;
  resultsOfResponse response.

(** [removePageLabel]. *)
Definition removePageLabel (this : ConfluenceClientImpl)
  (pageId : string) (labelId : string) : M unit :=
  request this ("/pages/" ++ pageId ++ "/labels/" ++ labelId)
    {| method := Some "DELETE"; headers := None; body := None |} false ;;
  ret tt.

(** [getPageLikes]. *)
Definition getPageLikes (this : ConfluenceClientImpl)
  (pageId : string) (params : option Params) : M JsValue :=
  let query := buildQueryString (match params with Some p => p | None => [] end) in
  request this ("/pages/" ++ pageId ++ "/likes" ++ query) emptyInit false.

(** [likePage]. *)
Definition likePage (this : ConfluenceClientImpl) (pageId : string) : M unit :=
  request this ("/pages/" ++ pageId ++ "/likes")
    {| method := Some "POST"; headers := None; body := None |} false ;;
  ret tt.

(** [unlikePage]. *)
Definition unlikePage (this : ConfluenceClientImpl) (pageId : string) : M unit :=
  request this ("/pages/" ++ pageId ++ "/likes")
    {| method := Some "DELETE"; headers := None; body := None |} false ;;
  ret tt.

(** [getPageVersions]. *)
Definition getPageVersions (this : ConfluenceClientImpl)
  (pageId : string) (params : option Params) : M JsValue :=
  let query := buildQueryString (match params with Some p => p | None => [] end) in
  request this ("/pages/" ++ pageId ++ "/versions" ++ query) emptyInit false.

(** [getPageVersion]. *)
Definition getPageVersion (this : ConfluenceClientImpl)
  (pageId : string) (versionNumber : Z) : M JsValue :=
  request this ("/pages/" ++ pageId ++ "/versions/" ++ stringOfZ versionNumber)
    emptyInit false.

(** [getPageProperties]. *)
Definition getPageProperties (this : ConfluenceClientImpl)
  (pageId : string) (params : option Params) : M JsValue :=
  let query := buildQueryString (match params with Some p => p | None => [] end) in
  request this ("/pages/" ++ pageId ++ "/properties" ++ query) emptyInit false.

(** [getPageProperty]. *)
Definition getPageProperty (this : ConfluenceClientImpl)
  (pageId : string) (propertyKey : string) : M JsValue :=
  request this ("/pages/" ++ pageId ++ "/properties/" ++ propertyKey) emptyInit false.

(** [createPageProperty]. *)
Definition createPageProperty (this : ConfluenceClientImpl)
  (pageId : string) (input : JsValue) : M JsValue :=
  request this ("/pages/" ++ pageId ++ "/properties") (writeInit "POST" input) false.

(** [deletePageProperty]. *)
Definition deletePageProperty (this : ConfluenceClientImpl)
  (pageId : string) (propertyKey : string) : M unit :=
  request this ("/pages/" ++ pageId ++ "/properties/" ++ propertyKey)
    {| method := Some "DELETE"; headers := None; body := None |} false ;;
  ret tt.

(** [getPageAttachments]. *)
Definition getPageAttachments (this : ConfluenceClientImpl)
  (pageId : string) (params : option Params) : M JsValue :=
  let query := buildQueryString (match params with Some p => p | None => [] end) in
  request this ("/pages/" ++ pageId ++ "/attachments" ++ query) emptyInit false.

(** [getPageComments]. *)
Definition getPageComments (this : ConfluenceClientImpl)
  (pageId : string) (params : option Params) : M JsValue :=
  let query := buildQueryString (match params with Some p => p | None => [] end) in
  request this ("/pages/" ++ pageId ++ "/comments" ++ query) emptyInit false.

(** [getPageOperations]. *)
Definition getPageOperations (this : ConfluenceClientImpl)
  (pageId : string) : M JsValue :=
  response <- request this ("/pages/" ++ pageId ++ "/operations") emptyInit false ;;
  resultsOfResponse response.

(** [listBlogPosts]. *)
Definition listBlogPosts (this : ConfluenceClientImpl)
  (params : option Params) : M JsValue :=
  let query := buildQueryString (match params with Some p => p | None => [] end) in
  request this ("/blogposts" ++ query) emptyInit false.

(** [getBlogPost]. *)
Definition getBlogPost (this : ConfluenceClientImpl)
  (blogPostId : string) (bodyFormat : option string) : M JsValue :=
  let query :=
    if truthyOpt bodyFormat
    then "?body-format=" ++ match bodyFormat with Some f => f | None => "" end
    else "" in
  request this ("/blogposts/" ++ blogPostId ++ query) emptyInit false.

(** [createBlogPost]. *)
Definition createBlogPost (this : ConfluenceClientImpl) (input : JsValue) : M JsValue :=
  request this ("/blogposts") (writeInit "POST" input) false.

(** [deleteBlogPost]. *)
Definition deleteBlogPost (this : ConfluenceClientImpl)
  (blogPostId : string) (purge : option bool) : M unit :=
  let purge := match purge with Some b => b | None => false end in
  let query := if purge then "?purge=true" else "" in
  request this ("/blogposts/" ++ blogPostId ++ query)
    {| method := Some "DELETE"; headers := None; body := None |} false ;;
  ret tt.

(** [getBlogPostsBySpaceId]. *)
Definition getBlogPostsBySpaceId (this : ConfluenceClientImpl)
  (spaceId : string) (params : option Params) : M JsValue :=
  let query := buildQueryString (match params with Some p => p | None => [] end) in
  request this ("/spaces/" ++ spaceId ++ "/blogposts" ++ query) emptyInit false.

(** [getBlogPostLabels]. *)
Definition getBlogPostLabels (this : ConfluenceClientImpl)
  (blogPostId : string) (params : option Params) : M JsValue :=
  let query := buildQueryString (match params with Some p => p | None => [] end) in
  request this ("/blogposts/" ++ blogPostId ++ "/labels" ++ query) emptyInit false.

(** [addBlogPostLabels]. *)
Definition addBlogPostLabels (this : ConfluenceClientImpl)
  (blogPostId : string) (labels : JsValue) : M JsValue :=
  response <- request this ("/blogposts/" ++ blogPostId ++ "/labels")
      (writeInit "POST" labels) false ;;
  resultsOfResponse response.

(** [removeBlogPostLabel]. *)
Definition removeBlogPostLabel (this : ConfluenceClientImpl)
  (blogPostId : string) (labelId : string) : M unit :=
  request this ("/blogposts/" ++ blogPostId ++ "/labels/" ++ labelId)
    {| method := Some "DELETE"; headers := None; body := None |} false ;;
  ret tt.

(** [getBlogPostVersions]. *)
Definition getBlogPostVersions (this : ConfluenceClientImpl)
  (blogPostId : string) (params : option Params) : M JsValue :=
  let query := buildQueryString (match params with Some p => p | None => [] end) in
  request this ("/blogposts/" ++ blogPostId ++ "/versions" ++ query) emptyInit false.

(** [getBlogPostAttachments]. *)
Definition getBlogPostAttachments (this : ConfluenceClientImpl)
  (blogPostId : string) (params : option Params) : M JsValue :=
  let query := buildQueryString (match params with Some p => p | None => [] end) in
  request this ("/blogposts/" ++ blogPostId ++ "/attachments" ++ query) emptyInit false.

(** [getBlogPostComments]. *)
Definition getBlogPostComments (this : ConfluenceClientImpl)
  (blogPostId : string) (params : option Params) : M JsValue :=
  let query := buildQueryString (match params with Some p => p | None => [] end) in
  request this ("/blogposts/" ++ blogPostId ++ "/comments" ++ query) emptyInit false.

(** [listComments]. *)
Definition listComments (this : ConfluenceClientImpl)
  (params : option Params) : M JsValue :=
  let query := buildQueryString (match params with Some p => p | None => [] end) in
  request this ("/comments" ++ query) emptyInit false.

(** [getComment]. *)
Definition getComment (this : ConfluenceClientImpl)
  (commentId : string) (bodyFormat : option string) : M JsValue :=
  let query :=
    if truthyOpt bodyFormat
    then "?body-format=" ++ match bodyFormat with Some f => f | None => "" end
    else "" in
  request this ("/comments/" ++ commentId ++ query) emptyInit false.

(** [createComment]. *)
Definition createComment (this : ConfluenceClientImpl) (input : JsValue) : M JsValue :=
  request this ("/comments") (writeInit "POST" input) false.

(** [deleteComment]. *)
Definition deleteComment (this : ConfluenceClientImpl) (commentId : string) : M unit :=
  request this ("/comments/" ++ commentId)
    {| method := Some "DELETE"; headers := None; body := None |} false ;;
  ret tt.

(** [listAttachments]. *)
Definition listAttachments (this : ConfluenceClientImpl)
  (params : option Params) : M JsValue :=
  let query := buildQueryString (match params with Some p => p | None => [] end) in
  request this ("/attachments" ++ query) emptyInit false.

(** [getAttachment]. *)
Definition getAttachment (this : ConfluenceClientImpl)
  (attachmentId : string) : M JsValue :=
  request this ("/attachments/" ++ attachmentId) emptyInit false.

(** [deleteAttachment]. *)
Definition deleteAttachment (this : ConfluenceClientImpl)
  (attachmentId : string) (purge : option bool) : M unit :=
  let purge := match purge with Some b => b | None => false end in
  let query := if purge then "?purge=true" else "" in
  request this ("/attachments/" ++ attachmentId ++ query)
    {| method := Some "DELETE"; headers := None; body := None |} false ;;
  ret tt.

(** [getAttachmentLabels]. *)
Definition getAttachmentLabels (this : ConfluenceClientImpl)
  (attachmentId : string) (params : option Params) : M JsValue :=
  let query := buildQueryString (match params with Some p => p | None => [] end) in
  request this ("/attachments/" ++ attachmentId ++ "/labels" ++ query) emptyInit false.

(** [listLabels]. *)
Definition listLabels (this : ConfluenceClientImpl)
  (params : option Params) : M JsValue :=
  let query := buildQueryString (match params with Some p => p | None => [] end) in
  request this ("/labels" ++ query) emptyInit false.

(** [getLabel]. *)
Definition getLabel (this : ConfluenceClientImpl) (labelId : string) : M JsValue :=
  request this ("/labels/" ++ labelId) emptyInit false.

(** [getLabelPages]. *)
Definition getLabelPages (this : ConfluenceClientImpl)
  (labelId : string) (params : option Params) : M JsValue :=
  let query := buildQueryString (match params with Some p => p | None => [] end) in
  request this ("/labels/" ++ labelId ++ "/pages" ++ query) emptyInit false.

(** [getLabelBlogPosts]. *)
Definition getLabelBlogPosts (this : ConfluenceClientImpl)
  (labelId : string) (params : option Params) : M JsValue :=
  let query := buildQueryString (match params with Some p => p | None => [] end) in
  request this ("/labels/" ++ labelId ++ "/blogposts" ++ query) emptyInit false.

(** [listTasks]. *)
Definition listTasks (this : ConfluenceClientImpl)
  (params : option Params) : M JsValue :=
  let query := buildQueryString (match params with Some p => p | None => [] end) in
  request this ("/tasks" ++ query) emptyInit false.

(** [getTask]. *)
Definition getTask (this : ConfluenceClientImpl) (taskId : string) : M JsValue :=
  request this ("/tasks/" ++ taskId) emptyInit false.

(** [updateTask]. *)
Definition updateTask (this : ConfluenceClientImpl)
  (taskId : string) (input : JsValue) : M JsValue :=
  request this ("/tasks/" ++ taskId) (writeInit "PUT" input) false.

(** [listUsers]. *)
Definition listUsers (this : ConfluenceClientImpl)
  (params : option Params) : M JsValue :=
  let query := buildQueryString (match params with Some p => p | None => [] end) in
  request this ("/users" ++ query) emptyInit false.

(** [getUser]. *)
Definition getUser (this : ConfluenceClientImpl) (accountId : string) : M JsValue :=
  request this ("/users/" ++ accountId) emptyInit false.

(** [listCustomContent]. *)
Definition listCustomContent (this : ConfluenceClientImpl)
  (params : option Params) : M JsValue :=
  let query := buildQueryString (match params with Some p => p | None => [] end) in
  request this ("/custom-content" ++ query) emptyInit false.

(** [getCustomContent]. *)
Definition getCustomContent (this : ConfluenceClientImpl)
  (customContentId : string) (bodyFormat : option string) : M JsValue :=
  let query :=
    if truthyOpt bodyFormat
    then "?body-format=" ++ match bodyFormat with Some f => f | None => "" end
    else "" in
  request this ("/custom-content/" ++ customContentId ++ query) emptyInit false.

(** [createCustomContent]. *)
Definition createCustomContent (this : ConfluenceClientImpl)
  (input : JsValue) : M JsValue :=
  request this ("/custom-content") (writeInit "POST" input) false.

(** [deleteCustomContent]. *)
Definition deleteCustomContent (this : ConfluenceClientImpl)
  (customContentId : string) (purge : option bool) : M unit :=
  let purge := match purge with Some b => b | None => false end in
  let query := if purge then "?purge=true" else "" in
  request this ("/custom-content/" ++ customContentId ++ query)
    {| method := Some "DELETE"; headers := None; body := None |} false ;;
  ret tt.

(** [getSpacePermissions]. *)
Definition getSpacePermissions (this : ConfluenceClientImpl)
  (spaceId : string) (params : option Params) : M JsValue :=
  let query := buildQueryString (match params with Some p => p | None => [] end) in
  request this ("/spaces/" ++ spaceId ++ "/permissions" ++ query) emptyInit false.

(** [createSpacePermission]. *)
Definition createSpacePermission (this : ConfluenceClientImpl)
  (spaceId : string) (input : JsValue) : M JsValue :=
  request this ("/spaces/" ++ spaceId ++ "/permissions") (writeInit "POST" input) false.

(** [deleteSpacePermission]. *)
Definition deleteSpacePermission (this : ConfluenceClientImpl)
  (spaceId : string) (permissionId : string) : M unit :=
  request this ("/spaces/" ++ spaceId ++ "/permissions/" ++ permissionId)
    {| method := Some "DELETE"; headers := None; body := None |} false ;;
  ret tt.

(** [getSpaceProperties]. *)
Definition getSpaceProperties (this : ConfluenceClientImpl)
  (spaceId : string) (params : option Params) : M JsValue :=
  let query := buildQueryString (match params with Some p => p | None => [] end) in
  request this ("/spaces/" ++ spaceId ++ "/properties" ++ query) emptyInit false.

(** [getSpaceProperty]. *)
Definition getSpaceProperty (this : ConfluenceClientImpl)
  (spaceId : string) (propertyKey : string) : M JsValue :=
  request this ("/spaces/" ++ spaceId ++ "/properties/" ++ propertyKey) emptyInit false.

(** [createSpaceProperty]. *)
Definition createSpaceProperty (this : ConfluenceClientImpl)
  (spaceId : string) (input : JsValue) : M JsValue :=
  request this ("/spaces/" ++ spaceId ++ "/properties") (writeInit "POST" input) false.

(** [deleteSpaceProperty]. *)
Definition deleteSpaceProperty (this : ConfluenceClientImpl)
  (spaceId : string) (propertyKey : string) : M unit :=
  request this ("/spaces/" ++ spaceId ++ "/properties/" ++ propertyKey)
    {| method := Some "DELETE"; headers := None; body := None |} false ;;
  ret tt.

(** [listDatabases]. *)
Definition listDatabases (this : ConfluenceClientImpl)
  (params : option Params) : M JsValue :=
  let query := buildQueryString (match params with Some p => p | None => [] end) in
  request this ("/databases" ++ query) emptyInit false.

(** [getDatabase]. *)
Definition getDatabase (this : ConfluenceClientImpl)
  (databaseId : string) : M JsValue :=
  request this ("/databases/" ++ databaseId) emptyInit false.

(** [listFolders]. *)
Definition listFolders (this : ConfluenceClientImpl)
  (params : option Params) : M JsValue :=
  let query := buildQueryString (match params with Some p => p | None => [] end) in
  request this ("/folders" ++ query) emptyInit false.

(** [getFolder]. *)
Definition getFolder (this : ConfluenceClientImpl) (folderId : string) : M JsValue :=
  request this ("/folders/" ++ folderId) emptyInit false.

(** [listWhiteboards]. *)
Definition listWhiteboards (this : ConfluenceClientImpl)
  (params : option Params) : M JsValue :=
  let query := buildQueryString (match params with Some p => p | None => [] end) in
  request this ("/whiteboards" ++ query) emptyInit false.

(** [getWhiteboard]. *)
Definition getWhiteboard (this : ConfluenceClientImpl)
  (whiteboardId : string) : M JsValue :=
  request this ("/whiteboards/" ++ whiteboardId) emptyInit false.

(** One call of a method of [ConfluenceClient], [testConnection] apart,
    with its arguments. *)
Inductive Operation : Type :=
| OpListSpaces (params : option Params)
| OpGetSpace (spaceId : string)
| OpCreateSpace (input : JsValue)
| OpDeleteSpace (spaceId : string)
| OpListPages (params : option Params)
| OpGetPage (pageId : string) (bodyFormat : option string)
| OpCreatePage (input : JsValue)
| OpUpdatePage (pageId : string) (input : JsValue)
| OpDeletePage (pageId : string) (purge : option bool)
| OpGetPagesBySpaceId (spaceId : string) (params : option Params)
| OpGetPageChildren (pageId : string) (params : option Params)
| OpGetPageAncestors (pageId : string)
| OpGetPageDescendants (pageId : string) (params : option Params)
| OpGetPageLabels (pageId : string) (params : option Params)
| OpAddPageLabels (pageId : string) (labels : JsValue)
| OpRemovePageLabel (pageId : string) (labelId : string)
| OpGetPageLikes (pageId : string) (params : option Params)
| OpLikePage (pageId : string)
| OpUnlikePage (pageId : string)
| OpGetPageVersions (pageId : string) (params : option Params)
| OpGetPageVersion (pageId : string) (versionNumber : Z)
| OpGetPageProperties (pageId : string) (params : option Params)
| OpGetPageProperty (pageId : string) (propertyKey : string)
| OpCreatePageProperty (pageId : string) (input : JsValue)
| OpUpdatePageProperty (pageId : string) (propertyKey : string) (input : JsValue)
| OpDeletePageProperty (pageId : string) (propertyKey : string)
| OpGetPageAttachments (pageId : string) (params : option Params)
| OpGetPageComments (pageId : string) (params : option Params)
| OpGetPageOperations (pageId : string)
| OpListBlogPosts (params : option Params)
| OpGetBlogPost (blogPostId : string) (bodyFormat : option string)
| OpCreateBlogPost (input : JsValue)
| OpUpdateBlogPost (blogPostId : string) (input : JsValue)
| OpDeleteBlogPost (blogPostId : string) (purge : option bool)
| OpGetBlogPostsBySpaceId (spaceId : string) (params : option Params)
| OpGetBlogPostLabels (blogPostId : string) (params : option Params)
| OpAddBlogPostLabels (blogPostId : string) (labels : JsValue)
| OpRemoveBlogPostLabel (blogPostId : string) (labelId : string)
| OpGetBlogPostVersions (blogPostId : string) (params : option Params)
| OpGetBlogPostAttachments (blogPostId : string) (params : option Params)
| OpGetBlogPostComments (blogPostId : string) (params : option Params)
| OpListComments (params : option Params)
| OpGetComment (commentId : string) (bodyFormat : option string)
| OpCreateComment (input : JsValue)
| OpUpdateComment (commentId : string) (input : JsValue)
| OpDeleteComment (commentId : string)
| OpListAttachments (params : option Params)
| OpGetAttachment (attachmentId : string)
| OpDeleteAttachment (attachmentId : string) (purge : option bool)
| OpGetAttachmentLabels (attachmentId : string) (params : option Params)
| OpListLabels (params : option Params)
| OpGetLabel (labelId : string)
| OpGetLabelPages (labelId : string) (params : option Params)
| OpGetLabelBlogPosts (labelId : string) (params : option Params)
| OpListTasks (params : option Params)
| OpGetTask (taskId : string)
| OpUpdateTask (taskId : string) (input : JsValue)
| OpListUsers (params : option Params)
| OpGetUser (accountId : string)
| OpListCustomContent (params : option Params)
| OpGetCustomContent (customContentId : string) (bodyFormat : option string)
| OpCreateCustomContent (input : JsValue)
| OpUpdateCustomContent (customContentId : string) (input : JsValue)
| OpDeleteCustomContent (customContentId : string) (purge : option bool)
| OpGetSpacePermissions (spaceId : string) (params : option Params)
| OpCreateSpacePermission (spaceId : string) (input : JsValue)
| OpDeleteSpacePermission (spaceId : string) (permissionId : string)
| OpGetSpaceProperties (spaceId : string) (params : option Params)
| OpGetSpaceProperty (spaceId : string) (propertyKey : string)
| OpCreateSpaceProperty (spaceId : string) (input : JsValue)
| OpUpdateSpaceProperty (spaceId : string) (propertyKey : string) (input : JsValue)
| OpDeleteSpaceProperty (spaceId : string) (propertyKey : string)
| OpListDatabases (params : option Params)
| OpGetDatabase (databaseId : string)
| OpListFolders (params : option Params)
| OpGetFolder (folderId : string)
| OpListWhiteboards (params : option Params)
| OpGetWhiteboard (whiteboardId : string)
| OpSearch (cql : string) (params : option SearchParams).

(** The call of the method; a method of result [void] gives [undefined]. *)
Definition perform (this : ConfluenceClientImpl) (op : Operation) : M JsValue :=
  match op with
  | OpListSpaces params => listSpaces this params
  | OpGetSpace spaceId => getSpace this spaceId
  | OpCreateSpace input => createSpace this input
  | OpDeleteSpace spaceId => deleteSpace this spaceId ;; ret JUndefined
  | OpListPages params => listPages this params
  | OpGetPage pageId bodyFormat => getPage this pageId bodyFormat
  | OpCreatePage input => createPage this input
  | OpUpdatePage pageId input => updatePage this pageId input
  | OpDeletePage pageId purge => deletePage this pageId purge ;; ret JUndefined
  | OpGetPagesBySpaceId spaceId params => getPagesBySpaceId this spaceId params
  | OpGetPageChildren pageId params => getPageChildren this pageId params
  | OpGetPageAncestors pageId => getPageAncestors this pageId
  | OpGetPageDescendants pageId params => getPageDescendants this pageId params
  | OpGetPageLabels pageId params => getPageLabels this pageId params
  | OpAddPageLabels pageId labels => addPageLabels this pageId labels
  | OpRemovePageLabel pageId labelId =>
      removePageLabel this pageId labelId ;; ret JUndefined
  | OpGetPageLikes pageId params => getPageLikes this pageId params
  | OpLikePage pageId => likePage this pageId ;; ret JUndefined
  | OpUnlikePage pageId => unlikePage this pageId ;; ret JUndefined
  | OpGetPageVersions pageId params => getPageVersions this pageId params
  | OpGetPageVersion pageId versionNumber => getPageVersion this pageId versionNumber
  | OpGetPageProperties pageId params => getPageProperties this pageId params
  | OpGetPageProperty pageId propertyKey => getPageProperty this pageId propertyKey
  | OpCreatePageProperty pageId input => createPageProperty this pageId input
  | OpUpdatePageProperty pageId propertyKey input =>
      updatePageProperty this pageId propertyKey input
  | OpDeletePageProperty pageId propertyKey =>
      deletePageProperty this pageId propertyKey ;; ret JUndefined
  | OpGetPageAttachments pageId params => getPageAttachments this pageId params
  | OpGetPageComments pageId params => getPageComments this pageId params
  | OpGetPageOperations pageId => getPageOperations this pageId
  | OpListBlogPosts params => listBlogPosts this params
  | OpGetBlogPost blogPostId bodyFormat => getBlogPost this blogPostId bodyFormat
  | OpCreateBlogPost input => createBlogPost this input
  | OpUpdateBlogPost blogPostId input => updateBlogPost this blogPostId input
  | OpDeleteBlogPost blogPostId purge =>
      deleteBlogPost this blogPostId purge ;; ret JUndefined
  | OpGetBlogPostsBySpaceId spaceId params => getBlogPostsBySpaceId this spaceId params
  | OpGetBlogPostLabels blogPostId params => getBlogPostLabels this blogPostId params
  | OpAddBlogPostLabels blogPostId labels => addBlogPostLabels this blogPostId labels
  | OpRemoveBlogPostLabel blogPostId labelId =>
      removeBlogPostLabel this blogPostId labelId ;; ret JUndefined
  | OpGetBlogPostVersions blogPostId params =>
      getBlogPostVersions this blogPostId params
  | OpGetBlogPostAttachments blogPostId params =>
      getBlogPostAttachments this blogPostId params
  | OpGetBlogPostComments blogPostId params =>
      getBlogPostComments this blogPostId params
  | OpListComments params => listComments this params
  | OpGetComment commentId bodyFormat => getComment this commentId bodyFormat
  | OpCreateComment input => createComment this input
  | OpUpdateComment commentId input => updateComment this commentId input
  | OpDeleteComment commentId => deleteComment this commentId ;; ret JUndefined
  | OpListAttachments params => listAttachments this params
  | OpGetAttachment attachmentId => getAttachment this attachmentId
  | OpDeleteAttachment attachmentId purge =>
      deleteAttachment this attachmentId purge ;; ret JUndefined
  | OpGetAttachmentLabels attachmentId params =>
      getAttachmentLabels this attachmentId params
  | OpListLabels params => listLabels this params
  | OpGetLabel labelId => getLabel this labelId
  | OpGetLabelPages labelId params => getLabelPages this labelId params
  | OpGetLabelBlogPosts labelId params => getLabelBlogPosts this labelId params
  | OpListTasks params => listTasks this params
  | OpGetTask taskId => getTask this taskId
  | OpUpdateTask taskId input => updateTask this taskId input
  | OpListUsers params => listUsers this params
  | OpGetUser accountId => getUser this accountId
  | OpListCustomContent params => listCustomContent this params
  | OpGetCustomContent customContentId bodyFormat =>
      getCustomContent this customContentId bodyFormat
  | OpCreateCustomContent input => createCustomContent this input
  | OpUpdateCustomContent customContentId input =>
      updateCustomContent this customContentId input
  | OpDeleteCustomContent customContentId purge =>
      deleteCustomContent this customContentId purge ;; ret JUndefined
  | OpGetSpacePermissions spaceId params => getSpacePermissions this spaceId params
  | OpCreateSpacePermission spaceId input => createSpacePermission this spaceId input
  | OpDeleteSpacePermission spaceId permissionId =>
      deleteSpacePermission this spaceId permissionId ;; ret JUndefined
  | OpGetSpaceProperties spaceId params => getSpaceProperties this spaceId params
  | OpGetSpaceProperty spaceId propertyKey => getSpaceProperty this spaceId propertyKey
  | OpCreateSpaceProperty spaceId input => createSpaceProperty this spaceId input
  | OpUpdateSpaceProperty spaceId propertyKey input =>
      updateSpaceProperty this spaceId propertyKey input
  | OpDeleteSpaceProperty spaceId propertyKey =>
      deleteSpaceProperty this spaceId propertyKey ;; ret JUndefined
  | OpListDatabases params => listDatabases this params
  | OpGetDatabase databaseId => getDatabase this databaseId
  | OpListFolders params => listFolders this params
  | OpGetFolder folderId => getFolder this folderId
  | OpListWhiteboards params => listWhiteboards this params
  | OpGetWhiteboard whiteboardId => getWhiteboard this whiteboardId
  | OpSearch cql params => search this cql params
  end.

End ClientSurface.

(* ===================================================================== *)
(** ** More tool handlers ([tools/pages.ts], [blogposts.ts], [comments.ts],
       [attachments.ts], [content.ts], [index.ts]) *)
(* ===================================================================== *)

Section MoreTools.

Context {runtime : Runtime} {errors : Errors} {renderers : Renderers}
  {runtimeErrors : RuntimeErrors}.

Variable client : ConfluenceClientImpl.

(** [confluence_list_pages]. *)
Definition confluence_list_pages (spaceId status title bodyFormat : option string)
  (limit : Z) (cursor : option string) (format : ResponseFormat) : M ToolResponse :=
  handler
    (result <- listPages client
       (Some [("spaceId", optionalString spaceId);
              ("status", optionalString status);
              ("title", optionalString title);
              ("bodyFormat", optionalString bodyFormat);
              ("limit", JNumber (Int limit));
              ("cursor", optionalString cursor)]) ;;
     ret (formatResponse result format "pages")).

(** [confluence_get_page]. *)
Definition confluence_get_page (pageId : string) (bodyFormat : option string)
  (format : ResponseFormat) : M ToolResponse :=
  handler
    (page <- getPage client pageId bodyFormat ;;
     ret (formatResponse page format "page")).

(** [confluence_get_page_ancestors]. *)
Definition confluence_get_page_ancestors (pageId : string) : M ToolResponse :=
  handler
    (ancestors <- getPageAncestors client pageId ;;
     ret (formatResponse ancestors FormatJson "ancestors")).

(** [labelNames.map(name => ({ name, prefix }))]. *)
Definition labelInputs (labelNames : list string) (prefix : string) : JsValue :=
  JArray (map (fun name => JObject [("name", JString name); ("prefix", JString prefix)])
            labelNames).

(** [confluence_add_page_labels]. *)
Definition confluence_add_page_labels (pageId : string) (labelNames : list string)
  (prefix : string) : M ToolResponse :=
  handler
    (labels <- addPageLabels client pageId (labelInputs labelNames prefix) ;;
     ret (successResponse "Labels added" "labels" labels)).

(** [confluence_add_blogpost_labels]. *)
Definition confluence_add_blogpost_labels (blogPostId : string)
  (labelNames : list string) (prefix : string) : M ToolResponse :=
  handler
    (labels <- addBlogPostLabels client blogPostId (labelInputs labelNames prefix) ;;
     ret (successResponse "Labels added" "labels" labels)).

(** The text block [JSON.stringify({ success: true, message }, null, 2)]. *)
Definition messageResponse (message : string) : ToolResponse :=
  {| content :=
       [JSON_stringify_indent2
          (JObject [("success", JBool true); ("message", JString message)])];
     isError := false |}.

(** [confluence_delete_blogpost]. *)
Definition confluence_delete_blogpost (blogPostId : string) (purge : bool)
  : M ToolResponse :=
  handler
    (deleteBlogPost client blogPostId (Some purge) ;;
     ret (messageResponse
            (if purge
             then "Blog post " ++ blogPostId ++ " permanently deleted"
             else "Blog post " ++ blogPostId ++ " moved to trash"))).

(** [confluence_delete_attachment]. *)
Definition confluence_delete_attachment (attachmentId : string) (purge : bool)
  : M ToolResponse :=
  handler
    (deleteAttachment client attachmentId (Some purge) ;;
     ret (messageResponse
            (if purge
             then "Attachment " ++ attachmentId ++ " permanently deleted"
             else "Attachment " ++ attachmentId ++ " moved to trash"))).

(** [confluence_delete_custom_content]. *)
Definition confluence_delete_custom_content (customContentId : string) (purge : bool)
  : M ToolResponse :=
  handler
    (deleteCustomContent client customContentId (Some purge) ;;
     ret (messageResponse "Custom content deleted")).

(** [confluence_delete_comment]. *)
Definition confluence_delete_comment (commentId : string) : M ToolResponse :=
  handler
    (deleteComment client commentId ;;
     ret (messageResponse ("Comment " ++ commentId ++ " deleted"))).

(** [confluence_create_comment]. *)
Definition confluence_create_comment (pageId blogPostId parentCommentId : option string)
  (body bodyRepresentation : string) : M ToolResponse :=
  handler
    (if negb (truthyOpt pageId) && negb (truthyOpt blogPostId)
     then
       ret {| content :=
                [JSON_stringify_indent2
                   (JObject [("error",
                              JString "Either pageId or blogPostId is required")])];
              isError := true |}
     else
       comment <- createComment client
         (JObject [("pageId", optionalString pageId);
                   ("blogPostId", optionalString blogPostId);
                   ("parentCommentId", optionalString parentCommentId);
                   ("body", contentBody bodyRepresentation body)]) ;;
       ret (successResponse "Comment created" "comment" comment)).

(** [confluence_test_connection], registered by [createStatelessServer]. *)
Definition confluence_test_connection : M ToolResponse :=
  tryCatch
    (result <- testConnection client ;;
     ret {| content :=
              [JSON_stringify_indent2
                 (JObject [("connected", JBool (connected result));
                           ("message", JString (message result))])];
            isError := false |})
    (fun error =>
       ret {| content := ["Connection failed: " ++ messageOr error "Unknown error"];
              isError := true |}).

End MoreTools.

(* ===================================================================== *)
(** ** Environment values ([types/env.ts]) *)
(* ===================================================================== *)

(** [keyof Env]. *)
Inductive EnvKey : Type :=
| CHARACTER_LIMIT
| DEFAULT_PAGE_SIZE
| MAX_PAGE_SIZE
| CONFLUENCE_KV
| MCP_SESSIONS
| AI.

(** [Env]: the value under each key, [JUndefined] when there is none. *)
Definition Env : Type := EnvKey -> JsValue.

(** [getEnvNumber]. *)
Definition getEnvNumber (env : Env) (key : EnvKey) (defaultValue : JsNumber)
  : JsNumber :=
  match env key with
  | JString value =>
      let parsed := parseInt10 value in
      match parsed with
      | NaN => defaultValue
      | Int _ => parsed
      end
  | _ => defaultValue
  end.

(** [getCharacterLimit]. *)
Definition getCharacterLimit (env : Env) : JsNumber :=
  getEnvNumber env CHARACTER_LIMIT (Int 50000).

(** [getDefaultPageSize]. *)
Definition getDefaultPageSize (env : Env) : JsNumber :=
  getEnvNumber env DEFAULT_PAGE_SIZE (Int 25).

(** [getMaxPageSize]. *)
Definition getMaxPageSize (env : Env) : JsNumber :=
  getEnvNumber env MAX_PAGE_SIZE (Int 250).

(* ===================================================================== *)
(** ** The worker ([index.ts]) *)
(* ===================================================================== *)

Definition SERVER_NAME : string := "primrose-mcp-confluence".
Definition SERVER_VERSION : string := "1.0.0".

(** An inbound request: the path of its URL, its method, its headers. *)
Record WorkerRequest : Type := mkWorkerRequest {
  pathname : string;
  requestMethod : string;
  requestHeaders : Headers
}.

(** What the [fetch] handler of the worker does with a request: it answers
    with a status, a content type if it sets one, and a body; or it builds
    the MCP server for the credentials and hands the request to it. *)
Inductive WorkerResult : Type :=
| Respond (status : Z) (contentType : option string) (body : string)
| HandleMcp (credentials : TenantCredentials).

(** The object of the default response of the worker. *)
Definition serverInfo : JsValue :=
  JObject
    [("name", JString "primrose-mcp-confluence");
     ("version", JString "1.0.0");
     ("description", JString "Multi-tenant Confluence MCP Server for Cloudflare Workers");
     ("endpoints",
      JObject
        [("mcp", JString "/mcp (POST) - Streamable HTTP MCP endpoint");
         ("health", JString "/health - Health check")]);
     ("authentication",
      JObject
        [("description", JString "Pass tenant credentials via request headers");
         ("required_headers",
          JObject
            [("X-Confluence-Domain", JString ("Atlassian domain (e.g., " ++ quote ++ "your-company" ++ quote ++ " for your-company.atlassian.net)"));
             ("X-Confluence-Email", JString "User email for Basic Auth");
             ("X-Confluence-API-Token", JString "API token from id.atlassian.com")]);
         ("optional_headers",
          JObject
            [("X-Confluence-Cloud-ID", JString "Direct Cloud ID (alternative to domain)")])]);
     ("tools",
      JObject
        [("spaces",
          JArray
            [JString "confluence_list_spaces";
             JString "confluence_get_space";
             JString "confluence_create_space";
             JString "confluence_delete_space";
             JString "confluence_get_space_permissions";
             JString "confluence_create_space_permission";
             JString "confluence_delete_space_permission";
             JString "confluence_get_space_properties";
             JString "confluence_get_space_property";
             JString "confluence_create_space_property";
             JString "confluence_update_space_property";
             JString "confluence_delete_space_property"]);
         ("pages",
          JArray
            [JString "confluence_list_pages";
             JString "confluence_get_pages_in_space";
             JString "confluence_get_page";
             JString "confluence_create_page";
             JString "confluence_update_page";
             JString "confluence_delete_page";
             JString "confluence_get_page_children";
             JString "confluence_get_page_ancestors";
             JString "confluence_get_page_descendants";
             JString "confluence_get_page_versions";
             JString "confluence_get_page_version";
             JString "confluence_get_page_properties";
             JString "confluence_create_page_property";
             JString "confluence_update_page_property";
             JString "confluence_delete_page_property";
             JString "confluence_get_page_attachments";
             JString "confluence_get_page_comments";
             JString "confluence_get_page_operations";
             JString "confluence_get_page_labels";
             JString "confluence_add_page_labels";
             JString "confluence_remove_page_label";
             JString "confluence_get_page_likes";
             JString "confluence_like_page";
             JString "confluence_unlike_page"]);
         ("blogposts",
          JArray
            [JString "confluence_list_blogposts";
             JString "confluence_get_blogposts_in_space";
             JString "confluence_get_blogpost";
             JString "confluence_create_blogpost";
             JString "confluence_update_blogpost";
             JString "confluence_delete_blogpost";
             JString "confluence_get_blogpost_versions";
             JString "confluence_get_blogpost_attachments";
             JString "confluence_get_blogpost_comments";
             JString "confluence_get_blogpost_labels";
             JString "confluence_add_blogpost_labels";
             JString "confluence_remove_blogpost_label"]);
         ("comments",
          JArray
            [JString "confluence_list_comments";
             JString "confluence_get_comment";
             JString "confluence_create_comment";
             JString "confluence_update_comment";
             JString "confluence_delete_comment"]);
         ("attachments",
          JArray
            [JString "confluence_list_attachments";
             JString "confluence_get_attachment";
             JString "confluence_delete_attachment";
             JString "confluence_get_attachment_labels"]);
         ("labels",
          JArray
            [JString "confluence_list_labels";
             JString "confluence_get_label";
             JString "confluence_get_label_pages";
             JString "confluence_get_label_blogposts"]);
         ("tasks",
          JArray
            [JString "confluence_list_tasks";
             JString "confluence_get_task";
             JString "confluence_update_task"]);
         ("users",
          JArray
            [JString "confluence_list_users";
             JString "confluence_get_user"]);
         ("content",
          JArray
            [JString "confluence_list_custom_content";
             JString "confluence_get_custom_content";
             JString "confluence_create_custom_content";
             JString "confluence_update_custom_content";
             JString "confluence_delete_custom_content";
             JString "confluence_list_databases";
             JString "confluence_get_database";
             JString "confluence_list_folders";
             JString "confluence_get_folder";
             JString "confluence_list_whiteboards";
             JString "confluence_get_whiteboard"]);
         ("search",
          JArray
            [JString "confluence_search";
             JString "confluence_search_pages";
             JString "confluence_search_by_label";
             JString "confluence_search_recent"]);
         ("connection",
          JArray
            [JString "confluence_test_connection"])])].

(** The body of the 401 response. *)
Definition unauthorizedBody (message : string) : JsValue :=
  JObject
    [("error", JString "Unauthorized");
     ("message", JString message);
     ("required_headers",
      JArray [JString "X-Confluence-Domain (or X-Confluence-Cloud-ID)";
              JString "X-Confluence-Email";
              JString "X-Confluence-API-Token"])].

(** The [fetch] handler of the worker. *)
Definition workerFetch {runtime : Runtime} (request : WorkerRequest) : WorkerResult :=
  if String.eqb (pathname request) "/health" then
    Respond 200 (Some "application/json")
      (JSON_stringify (JObject [("status", JString "ok");
                                ("server", JString SERVER_NAME)]))
  else if String.eqb (pathname request) "/mcp"
          && String.eqb (requestMethod request) "POST" then
    let credentials := parseTenantCredentials (requestHeaders request) in
    match validateCredentials credentials with
    | inl message =>
        Respond 401 (Some "application/json")
          (JSON_stringify (unauthorizedBody message))
    | inr _ => HandleMcp credentials
    end
  else if String.eqb (pathname request) "/sse" then
    Respond 501 None
      "SSE endpoint requires Durable Objects. Use /mcp endpoint instead."
  else
    Respond 200 (Some "application/json") (JSON_stringify serverInfo).

(* ===================================================================== *)
(** ** Display labels ([utils/formatters.ts]) *)
(* ===================================================================== *)

(** [[A-Z]]. *)
Definition isUpper (c : ascii) : bool :=
  let n := N_of_ascii c in ((65 <=? n) && (n <=? 90))%N.

(** [key.replace(/([A-Z])/g, ' $1')]: a space before every capital. *)
Fixpoint insertSpaces (key : string) : string :=
  match key with
  | EmptyString => EmptyString
  | String c rest =>
      if isUpper c then String " " (String c (insertSpaces rest))
      else String c (insertSpaces rest)
  end.

(** A line terminator, which the [.] of a pattern does not match. *)
Definition isLineTerminator (c : ascii) : bool :=
  let n := N_of_ascii c in ((n =? 10) || (n =? 13))%N.

(** [s.replace(/^./, (str) => str.toUpperCase())], for an ASCII first
    character. *)
Definition upperFirst (s : string) : string :=
  match s with
  | EmptyString => EmptyString
  | String c rest => if isLineTerminator c then s else String (toUpperCase c) rest
  end.

(** [s.trimEnd()], for ASCII white space. *)
Fixpoint trimEnd (s : string) : string :=
  match s with
  | EmptyString => EmptyString
  | String c rest =>
      match trimEnd rest with
      | EmptyString => if isWhiteSpace c then EmptyString else String c EmptyString
      | String d rest' => String c (String d rest')
      end
  end.

(** [s.trim()], for ASCII white space. *)
Definition trim (s : string) : string := trimEnd (skipWhiteSpace s).

(** [formatKey]. *)
Definition formatKey (key : string) : string :=
  trim (upperFirst (insertSpaces key)).

(* ===================================================================== *)
(** ** Definitions used to state the properties *)
(* ===================================================================== *)

(** The three headers that [getAuthHeaders] returns for the encoded
    credentials. *)
Definition authHeaders (encoded : string) : list (string * string) :=
  [("Authorization", "Basic " ++ encoded);
   ("Content-Type", "application/json");
   ("Accept", "application/json")].

(** The text that [btoa] is given. *)
Definition plainCredentials (this : ConfluenceClientImpl) : string :=
  email (credentials this) ++ ":" ++ apiToken (credentials this).

(** The [fetch] call of a request that passes no headers of its own. *)
Definition callOf (url : string) (verb body : option string) (encoded : string)
  : FetchCall :=
  {| url := url;
     init := {| method := verb; headers := Some (authHeaders encoded); body := body |} |}.

(** The base that the flag of [request] selects. *)
Definition baseFor (this : ConfluenceClientImpl) (useSearchApi : bool) : string :=
  if useSearchApi then searchBaseUrl this else baseUrl this.

(** A response that [request] turns into a return value: a success status
    and, unless it is 204, a body that is JSON. *)
Definition succeeds {runtime : Runtime} (r : Response) : bool :=
  ok r && ((status r =? 204)
           || match JSON_parse (bodyText r) with Some _ => true | None => false end).

(** The query that [deletePage] appends. *)
Definition purgeQuery (purge : bool) : string :=
  if purge then "?purge=true" else "".

(** No character of [s] is [c]. *)
Fixpoint without (c : ascii) (s : string) : bool :=
  match s with
  | EmptyString => true
  | String a rest => negb (Ascii.eqb a c) && without c rest
  end.


(** A property of a JSON value, [JUndefined] when the value is no object
    or has no such property. *)
Definition field (k : string) (v : JsValue) : JsValue :=
  match v with
  | JObject fields => lookup k fields
  | _ => JUndefined
  end.

(** Whether [_links.next] of a response is there at all: neither
    [undefined] nor [null]. *)
Definition nextPresent (data : JsValue) : bool :=
  match field "next" (field "_links" data) with
  | JUndefined | JNull => false
  | _ => true
  end.






(** The seconds of a rate-limit error: the parsed [Retry-After] header
    when there is one that is not empty, 60 otherwise. *)
Definition retryAfterSeconds (header : option string) : JsNumber :=
  match header with
  | Some (String c s) => parseInt10 (String c s)
  | Some EmptyString | None => Int 60
  end.

(** A printer of JSON values for the sample runtime below (strings are
    printed between quotation marks as they are). *)
Fixpoint printJson (v : JsValue) : string :=
  match v with
  | JUndefined => "undefined"
  | JNull => "null"
  | JBool b => stringOfBool b
  | JNumber n => stringOfNumber n
  | JString s => quote ++ s ++ quote
  | JArray items =>
      "[" ++ (fix elements (l : list JsValue) : string :=
                match l with
                | [] => ""
                | [x] => printJson x
                | x :: rest => printJson x ++ "," ++ elements rest
                end) items ++ "]"
  | JObject fields =>
      "{" ++ (fix members (l : list (string * JsValue)) : string :=
                match l with
                | [] => ""
                | [(k, x)] => quote ++ k ++ quote ++ ":" ++ printJson x
                | (k, x) :: rest =>
                    quote ++ k ++ quote ++ ":" ++ printJson x ++ "," ++ members rest
                end) fields ++ "}"
  end.

(** A runtime for the examples: the network answers every call with
    [respond], [JSON.parse] is [parse], base64 is left out ([btoa] returns
    its argument), the clock shows [now] in UTC. *)
Definition sampleRuntime (respond : FetchCall -> FetchOutcome)
  (parse : string -> option JsValue) (now : Z) : Runtime :=
  {| fetch := respond;
     JSON_parse := parse;
     syntaxErrorMessage := fun _ => "Unexpected token";
     JSON_stringify := printJson;
     JSON_stringify_indent2 := printJson;
     btoa := fun s => Some s;
     btoaErrorMessage := fun _ => "Invalid character";
     rangeErrorMessage := "Invalid time value";
     Date_now := now;
     LocalTZA := 0 |}.

(** An error taxonomy for the examples. *)
Definition sampleErrors : Errors :=
  {| errorMessage := fun e =>
       match e with
       | RateLimitError m _ | AuthenticationError m | ForbiddenError m => m
       | NotFoundError resource id => resource ++ " not found: " ++ id
       | ConfluenceApiError m _ => printJson m
       end;
     retryable := fun e => match e with RateLimitError _ _ => true | _ => false end;
     formatErrorForLogging := fun _ => JNull |}.

(** Renderers for the examples. *)
Definition sampleRenderers : Renderers :=
  {| formatSpacesTable := fun _ => "| ID | Key | Name | Type | Status |";
     formatPagesTable := fun _ => "| ID | Title | Space ID | Status | Version |";
     formatBlogPostsTable := fun _ => "| ID | Title | Space ID | Status | Created |";
     formatCommentsTable := fun _ => "| ID | Status | Created | Version |";
     formatAttachmentsTable := fun _ => "| ID | Title | Media Type | Size |";
     formatLabelsTable := fun _ => "| ID | Name | Prefix |";
     formatTasksTable := fun _ => "| ID | Status | Assigned To | Due Date |";
     formatUsersTable := fun _ => "| Account ID | Name | Type |";
     formatSearchResultsTable := fun _ => "| Title | Type | Space | Last Modified |";
     formatGenericTable := fun _ => "_No items_";
     formatObjectAsMarkdown := fun v _ => printJson v;
     stringOfValue := printJson |}.

(** A response with no headers. *)
Definition plainResponse (status : Z) (bodyText : string) : Response :=
  {| status := status; responseHeaders := fun _ => None; bodyText := bodyText |}.

(** Credentials and a client for the examples. *)
Definition sampleCredentials : TenantCredentials :=
  {| domain := "acme"; email := "ann@acme.test"; apiToken := "secret";
     cloudId := None |}.

Definition sampleClient : ConfluenceClientImpl :=
  createConfluenceClient sampleCredentials.

(** Whether the operation is [search]. *)
Definition isSearch (op : Operation) : bool :=
  match op with
  | OpSearch _ _ => true
  | _ => false
  end.

(** A continuation that makes no [fetch] call. *)
Definition silent {A B : Type} (k : A -> M B) : Prop :=
  forall a log, snd (k a log) = log.

(** Every character of [s] satisfies [p]. *)
Fixpoint allChars (p : ascii -> bool) (s : string) : bool :=
  match s with
  | EmptyString => true
  | String c rest => p c && allChars p rest
  end.

(** The characters of a form-urlencoded name or value: the safe ones,
    [+] and [%]. *)
Definition encodedChar (c : ascii) : bool :=
  formUrlSafe c || Ascii.eqb c "+" || Ascii.eqb c "%".

(** The value of a hexadecimal digit. *)
Definition hexValue (c : ascii) : N :=
  let n := N_of_ascii c in
  if ((48 <=? n) && (n <=? 57))%N then (n - 48)%N
  else if ((65 <=? n) && (n <=? 70))%N then (n - 55)%N
  else if ((97 <=? n) && (n <=? 102))%N then (n - 87)%N
  else 0%N.

(** The reading of a form-urlencoded name or value: [+] is a space and
    [%XX] a byte. *)
Fixpoint formUrlDecode (s : string) : string :=
  match s with
  | EmptyString => EmptyString
  | String c rest =>
      if Ascii.eqb c "+" then String " " (formUrlDecode rest)
      else if Ascii.eqb c "%" then
        match rest with
        | String h (String l rest') =>
            String (ascii_of_N (16 * hexValue h + hexValue l)) (formUrlDecode rest')
        | _ => String c (formUrlDecode rest)
        end
      else String c (formUrlDecode rest)
  end.

(** [s] cut at every [c]. *)
Fixpoint splitOn (c : ascii) (s : string) : list string :=
  match s with
  | EmptyString => [EmptyString]
  | String a rest =>
      if Ascii.eqb a c then EmptyString :: splitOn c rest
      else match splitOn c rest with
           | piece :: pieces => String a piece :: pieces
           | [] => [String a EmptyString]
           end
  end.

(** What stands before and after the first [c] of [s]. *)
Fixpoint splitAtFirst (c : ascii) (s : string) : string * string :=
  match s with
  | EmptyString => (EmptyString, EmptyString)
  | String a rest =>
      if Ascii.eqb a c then (EmptyString, rest)
      else let '(x, y) := splitAtFirst c rest in (String a x, y)
  end.

(** The reading of a query string by its receiver: the pieces between
    [&], each a name and a value around its first [=], decoded. *)
Definition parseQuery (query : string) : URLSearchParams :=
  match query with
  | EmptyString => []
  | _ =>
      map (fun piece =>
             let '(name, value) := splitAtFirst "=" piece in
             (formUrlDecode name, formUrlDecode value))
          (splitOn "&" query)
  end.

(** Whether [buildQueryString] sends an entry: its value is neither
    [undefined] nor [null]. *)
Definition definedParam (entry : string * JsValue) : bool :=
  match snd entry with
  | JUndefined | JNull => false
  | _ => true
  end.

(** The name and value under which [buildQueryString] sends an entry. *)
Definition wireParam (entry : string * JsValue) : string * string :=
  (if String.eqb (fst entry) "bodyFormat" && truthy (snd entry)
   then "body-format" else fst entry,
   toStringValue (snd entry)).

(** The parameters that [search] sets, in their order. *)
Definition searchEntries (cql : string) (params : option SearchParams)
  : URLSearchParams :=
  ([("cql", cql)]
   ++ match params with
      | Some {| limit := Some n |} =>
          if n =? 0 then [] else [("limit", stringOfZ n)]
      | _ => []
      end
   ++ match params with
      | Some {| cursor := Some c |} =>
          if truthyString c then [("cursor", c)] else []
      | _ => []
      end
   ++ match params with
      | Some {| excerpt := Some e |} => [("excerpt", stringOfBool e)]
      | _ => []
      end)%list.

(** [Number.isSafeInteger]: the integers that a number holds exactly, and
    that [String] and [parseInt] write and read in decimal notation. *)
Definition isSafeInteger (z : Z) : Prop := Z.abs z <= 9007199254740991.

(** A character of the ASCII range. *)
Definition isAsciiChar (c : ascii) : bool := (N_of_ascii c <? 128)%N.

(** Messages of runtime errors for the examples. *)
Definition sampleRuntimeErrors : RuntimeErrors :=
  {| typeErrorMessage := "Cannot read properties of undefined" |}.

(** One serialized pair. *)
Definition pairString (nv : string * string) : string :=
  formUrlEncode (fst nv) ++ String "=" (formUrlEncode (snd nv)).

(** A runtime whose [btoa] rejects every text. *)
Definition rejectingRuntime : Runtime :=
  {| fetch := fun _ => Resolved (plainResponse 200 "{}");
     JSON_parse := fun _ => Some (JObject []);
     syntaxErrorMessage := fun _ => "Unexpected token";
     JSON_stringify := printJson;
     JSON_stringify_indent2 := printJson;
     btoa := fun _ => None;
     btoaErrorMessage := fun _ => "Invalid character";
     rangeErrorMessage := "Invalid time value";
     Date_now := 0;
     LocalTZA := 0 |}.

(** The network answers every call with the same response. *)
Definition alwaysAnswers {runtime : Runtime} (r : Response) : Prop :=
  forall call, fetch call = Resolved r.

(** The entry of an optional text argument. *)
Definition optionalEntry (name : string) (o : option string) : URLSearchParams :=
  match o with
  | Some s => [(name, s)]
  | None => []
  end.

(** The required headers that a request lacks: domain and cloud id both,
    or the email, or the API token; a header with an empty value counts as
    lacking. *)
Definition lacksCredentials (h : Headers) : Prop :=
  (absentOrEmpty (h "X-Confluence-Domain") /\ absentOrEmpty (h "X-Confluence-Cloud-ID"))
  \/ absentOrEmpty (h "X-Confluence-Email")
  \/ absentOrEmpty (h "X-Confluence-API-Token").


(** A runtime whose network answers 204 to every call. *)
Definition noContentRuntime : Runtime :=
  sampleRuntime (fun _ => Resolved (plainResponse 204 "")) (fun _ => None) 0.

(** The last character of [s], if any, is no white space. *)
Fixpoint endsClean (s : string) : bool :=
  match s with
  | EmptyString => true
  | String c rest =>
      match rest with
      | EmptyString => negb (isWhiteSpace c)
      | String _ _ => endsClean rest
      end
  end.

(* ===================================================================== *)
(** * Properties *)
(* ===================================================================== *)

(** ** Credential resolver *)

Lemma truthyString_false (s : string) : truthyString s = false <-> s = "".
Proof. destruct s; simpl; split; congruence. Qed.

Lemma truthyString_true (s : string) : truthyString s = true <-> s <> "".
Proof. destruct s; simpl; split; congruence. Qed.

Lemma orString_empty (h : option string) : orString h "" = "" <-> absentOrEmpty h.
Proof.
  unfold absentOrEmpty.
  destruct h as [[|c s]|]; simpl; split; intros H; auto;
    try discriminate; destruct H; discriminate.
Qed.

Lemma orUndefined_none (h : option string) : orUndefined h = None <-> absentOrEmpty h.
Proof.
  unfold absentOrEmpty.
  destruct h as [[|c s]|]; simpl; split; intros H; auto;
    try discriminate; destruct H; discriminate.
Qed.

(** Parsing never yields a cloud id that is the empty string. *)
Lemma parse_cloudId_not_empty (h : Headers) :
  cloudId (parseTenantCredentials h) <> Some "".
Proof.
  simpl. destruct (h "X-Confluence-Cloud-ID") as [[|c s]|]; simpl; congruence.
Qed.

Lemma truthyOpt_parsed_cloudId (h : Headers) :
  truthyOpt (cloudId (parseTenantCredentials h)) = false
  <-> cloudId (parseTenantCredentials h) = None.
Proof.
  simpl. destruct (h "X-Confluence-Cloud-ID") as [[|c s]|]; simpl;
    split; congruence.
Qed.

(** What [validateCredentials] returns, by the first check that fails. *)
Lemma validateCredentials_cases (c : TenantCredentials) :
  (truthyString (domain c) = false /\ truthyOpt (cloudId c) = false
   /\ validateCredentials c = inl missingDomainMessage)
  \/ ((truthyString (domain c) = true \/ truthyOpt (cloudId c) = true)
      /\ truthyString (email c) = false
      /\ validateCredentials c = inl missingEmailMessage)
  \/ ((truthyString (domain c) = true \/ truthyOpt (cloudId c) = true)
      /\ truthyString (email c) = true /\ truthyString (apiToken c) = false
      /\ validateCredentials c = inl missingApiTokenMessage)
  \/ ((truthyString (domain c) = true \/ truthyOpt (cloudId c) = true)
      /\ truthyString (email c) = true /\ truthyString (apiToken c) = true
      /\ validateCredentials c = inr tt).
Proof.
  unfold validateCredentials.
  destruct (truthyString (domain c)), (truthyOpt (cloudId c)),
    (truthyString (email c)), (truthyString (apiToken c)); simpl; tauto.
Qed.

(** C4.  For the credentials parsed from any request, validation fails
    exactly when domain and cloud id are both absent, or the email is
    absent, or the API token is absent; the message of a failure is the one
    of the first missing item, the three messages differ from one another
    and each names the header to provide; credentials with a domain or a
    cloud id, an email and a token pass. *)
Theorem validateCredentials_fails_exactly_when_missing (h : Headers) :
  let c := parseTenantCredentials h in
  let noTenant := domain c = "" /\ cloudId c = None in
  ((exists msg, validateCredentials c = inl msg)
   <-> noTenant \/ email c = "" \/ apiToken c = "")
  /\ (noTenant -> validateCredentials c = inl missingDomainMessage)
  /\ (~ noTenant -> email c = "" -> validateCredentials c = inl missingEmailMessage)
  /\ (~ noTenant -> email c <> "" -> apiToken c = ""
      -> validateCredentials c = inl missingApiTokenMessage)
  /\ (~ noTenant -> email c <> "" -> apiToken c <> ""
      -> validateCredentials c = inr tt)
  /\ (missingDomainMessage <> missingEmailMessage
      /\ missingDomainMessage <> missingApiTokenMessage
      /\ missingEmailMessage <> missingApiTokenMessage)
  /\ (includes missingDomainMessage "X-Confluence-Domain" = true
      /\ includes missingDomainMessage "X-Confluence-Cloud-ID" = true
      /\ includes missingEmailMessage "X-Confluence-Email" = true
      /\ includes missingApiTokenMessage "X-Confluence-API-Token" = true).
Proof.
  intros c noTenant.
  pose proof (validateCredentials_cases c) as Hcases.
  pose proof (truthyOpt_parsed_cloudId h) as Hcloud. fold c in Hcloud.
  assert (HnoTenant : noTenant
            <-> truthyString (domain c) = false /\ truthyOpt (cloudId c) = false).
  { unfold noTenant. rewrite truthyString_false, Hcloud. tauto. }
  assert (Htenant : ~ noTenant
            <-> truthyString (domain c) = true \/ truthyOpt (cloudId c) = true).
  { rewrite HnoTenant.
    destruct (truthyString (domain c)), (truthyOpt (cloudId c));
      intuition congruence. }
  pose proof (truthyString_false (email c)) as He0.
  pose proof (truthyString_true (email c)) as He1.
  pose proof (truthyString_false (apiToken c)) as Ht0.
  pose proof (truthyString_true (apiToken c)) as Ht1.
  repeat split.
  - intros [msg Hmsg].
    destruct Hcases as [(?&?&?)|[(?&?&?)|[(?&?&?&?)|(?&?&?&Hok)]]];
      try tauto.
    rewrite Hok in Hmsg. discriminate.
  - intros Hmissing.
    destruct Hcases as [(?&?&?)|[(?&?&?)|[(?&?&?&?)|(Hd&He&Ht&Hok)]]];
      eauto.
    exfalso. destruct Hmissing as [Hn|[Hn|Hn]].
    + apply Htenant in Hd. contradiction.
    + apply He0 in Hn. congruence.
    + apply Ht0 in Hn. congruence.
  - intros Hn. apply HnoTenant in Hn.
    destruct Hcases as [(?&?&?)|[(Hd&?)|[(Hd&?)|(Hd&?)]]]; auto;
      destruct Hn, Hd; congruence.
  - intros Hn He. apply He0 in He.
    destruct Hcases as [(?&?&?)|[(?&?&?)|[(?&?&?&?)|(?&?&?&?)]]]; auto;
      try congruence.
    exfalso. apply Hn, HnoTenant. auto.
  - intros Hn He Ht. apply He1 in He. apply Ht0 in Ht.
    destruct Hcases as [(?&?&?)|[(?&?&?)|[(?&?&?&?)|(?&?&?&?)]]]; auto;
      try congruence.
    exfalso. apply Hn, HnoTenant. auto.
  - intros Hn He Ht. apply He1 in He. apply Ht1 in Ht.
    destruct Hcases as [(?&?&?)|[(?&?&?)|[(?&?&?&?)|(?&?&?&?)]]]; auto;
      try congruence.
    exfalso. apply Hn, HnoTenant. auto.
  - discriminate.
  - discriminate.
  - discriminate.
Qed.

(** A request with all three required headers passes; one that sends only
    the domain fails with the message for the email. *)
Example validateCredentials_examples :
  validateCredentials
    (parseTenantCredentials
       (fun name =>
          if String.eqb name "X-Confluence-Domain" then Some "acme"
          else if String.eqb name "X-Confluence-Email" then Some "ann@acme.test"
          else if String.eqb name "X-Confluence-API-Token" then Some "secret"
          else None)) = inr tt
  /\ validateCredentials
       (parseTenantCredentials
          (fun name =>
             if String.eqb name "X-Confluence-Domain" then Some "acme" else None))
     = inl missingEmailMessage.
Proof. split; reflexivity. Qed.

(** Removing the empty headers changes nothing of what is parsed. *)
Lemma parse_dropEmpty (h : Headers) :
  parseTenantCredentials (dropEmpty h) = parseTenantCredentials h.
Proof.
  unfold parseTenantCredentials, dropEmpty.
  destruct (h "X-Confluence-Domain") as [[|? ?]|],
           (h "X-Confluence-Email") as [[|? ?]|],
           (h "X-Confluence-API-Token") as [[|? ?]|],
           (h "X-Confluence-Cloud-ID") as [[|? ?]|]; reflexivity.
Qed.

(** C9.  A tenant header that holds the empty string is treated as an
    absent one: parsing the request without its empty headers gives the
    same credentials, an absent or empty header gives the empty string (no
    value at all for the cloud id), and parsing followed by validation
    fails exactly when domain and cloud id are both absent or empty, or the
    email is, or the API token is. *)
Theorem empty_header_is_absent_header (h : Headers) :
  let c := parseTenantCredentials h in
  parseTenantCredentials (dropEmpty h) = c
  /\ (domain c = "" <-> absentOrEmpty (h "X-Confluence-Domain"))
  /\ (email c = "" <-> absentOrEmpty (h "X-Confluence-Email"))
  /\ (apiToken c = "" <-> absentOrEmpty (h "X-Confluence-API-Token"))
  /\ (cloudId c = None <-> absentOrEmpty (h "X-Confluence-Cloud-ID"))
  /\ ((exists msg, validateCredentials c = inl msg)
      <-> (absentOrEmpty (h "X-Confluence-Domain")
           /\ absentOrEmpty (h "X-Confluence-Cloud-ID"))
          \/ absentOrEmpty (h "X-Confluence-Email")
          \/ absentOrEmpty (h "X-Confluence-API-Token")).
Proof.
  intros c.
  assert (Hd : domain c = "" <-> absentOrEmpty (h "X-Confluence-Domain"))
    by apply orString_empty.
  assert (He : email c = "" <-> absentOrEmpty (h "X-Confluence-Email"))
    by apply orString_empty.
  assert (Ht : apiToken c = "" <-> absentOrEmpty (h "X-Confluence-API-Token"))
    by apply orString_empty.
  assert (Hc : cloudId c = None <-> absentOrEmpty (h "X-Confluence-Cloud-ID"))
    by apply orUndefined_none.
  split; [apply parse_dropEmpty|].
  repeat (split; [assumption|]).
  pose proof (validateCredentials_cases c) as Hcases.
  pose proof (truthyOpt_parsed_cloudId h) as Hcloud. fold c in Hcloud.
  rewrite <- Hd, <- He, <- Ht, <- Hc, <- Hcloud.
  rewrite <- !truthyString_false.
  split.
  - intros [msg Hmsg].
    destruct Hcases as [(?&?&?)|[(?&?&?)|[(?&?&?&?)|(?&?&?&Hok)]]];
      try tauto.
    rewrite Hok in Hmsg. discriminate.
  - intros Hmissing.
    destruct Hcases as [(?&?&?)|[(?&?&?)|[(?&?&?&?)|(Hd'&He'&Ht'&Hok)]]];
      eauto.
    exfalso. destruct Hmissing as [[Hn1 Hn2]|[Hn|Hn]]; try congruence.
    destruct Hd'; congruence.
Qed.

(** ** Base endpoints *)

(** Both base endpoints are built from the domain alone. *)
Lemma base_urls_from_domain (c : TenantCredentials) :
  baseUrl (createConfluenceClient c)
  = "https://" ++ domain c ++ ".atlassian.net/wiki/api/v2"
  /\ searchBaseUrl (createConfluenceClient c)
     = "https://" ++ domain c ++ ".atlassian.net/wiki/rest/api".
Proof. split; reflexivity. Qed.

(** The cloud id has no part in the base endpoints. *)
Lemma base_urls_ignore_cloudId (d e t : string) (id1 id2 : option string) :
  baseUrl (createConfluenceClient (mkCredentials d e t id1))
  = baseUrl (createConfluenceClient (mkCredentials d e t id2))
  /\ searchBaseUrl (createConfluenceClient (mkCredentials d e t id1))
     = searchBaseUrl (createConfluenceClient (mkCredentials d e t id2)).
Proof. split; reflexivity. Qed.

(** C3, at credentials that give a cloud id and no domain: validation lets
    them pass, and the client's base endpoints are built from the empty
    domain; the cloud id is no part of them. *)
Theorem cloudId_credentials_get_hostless_base_url :
  let c := {| domain := ""; email := "ann@acme.test"; apiToken := "secret";
              cloudId := Some "11223344-a1b2-3c4d" |} in
  validateCredentials c = inr tt
  /\ baseUrl (createConfluenceClient c) = "https://.atlassian.net/wiki/api/v2"
  /\ searchBaseUrl (createConfluenceClient c) = "https://.atlassian.net/wiki/rest/api"
  /\ includes (baseUrl (createConfluenceClient c)) "11223344-a1b2-3c4d" = false.
Proof. repeat split. Qed.

(** ** Request engine *)

Section RequestFacts.

Context {runtime : Runtime}.

Variable this : ConfluenceClientImpl.
Variable encoded : string.
Hypothesis btoa_ok : btoa (plainCredentials this) = Some encoded.

Lemma spread_nil (a : list (string * string)) : spread a [] = a.
Proof. reflexivity. Qed.

(** A request makes one call of [fetch], to the selected base followed by
    the endpoint, with the verb and body of its options and the
    authentication headers. *)
Lemma request_log (endpoint : string) (verb body : option string)
  (useSearchApi : bool) :
  snd (run (request this endpoint
              {| method := verb; headers := None; body := body |} useSearchApi))
  = [callOf (baseFor this useSearchApi ++ endpoint) verb body encoded].
Proof.
  unfold run, request, bind, getAuthHeaders, awaitFetch.
  fold (plainCredentials this). rewrite btoa_ok. cbn.
  fold (authHeaders encoded). fold (baseFor this useSearchApi).
  fold (callOf (baseFor this useSearchApi ++ endpoint) verb body encoded).
  destruct (fetch _) as [t|r]; [reflexivity|].
  unfold throw, ret, json.
  repeat match goal with
         | |- context [if ?b then _ else _] => destruct b
         | |- context [match JSON_parse ?s with _ => _ end] =>
             destruct (JSON_parse s)
         end; reflexivity.
Qed.


Ltac run_request Hfetch :=
  unfold run, request, bind, getAuthHeaders, awaitFetch;
  fold (plainCredentials this); rewrite btoa_ok; cbn;
  lazymatch type of Hfetch with
  | fetch ?c' = _ =>
      match goal with
      | |- context [fetch ?c] => change c with c'
      end
  end;
  rewrite Hfetch; cbn [fst snd].

(** A rejected [fetch] rejects the request with the same value. *)
Lemma request_rejected (endpoint : string) (verb body : option string)
  (useSearchApi : bool) (t : Thrown) :
  fetch (callOf (baseFor this useSearchApi ++ endpoint) verb body encoded) = Rejected t ->
  fst (run (request this endpoint
              {| method := verb; headers := None; body := body |} useSearchApi))
  = Throw t.
Proof.
  intros Hfetch. run_request Hfetch. reflexivity.
Qed.



Lemma ok_not_error_status (r : Response) :
  ok r = true ->
  (status r =? 429) = false /\ (status r =? 401) = false
  /\ (status r =? 403) = false /\ (status r =? 404) = false.
Proof.
  unfold ok. intros H. apply andb_prop in H as [H1 H2].
  apply Z.leb_le in H1, H2.
  repeat split; apply Z.eqb_neq; lia.
Qed.

(** The request returns exactly for such a response. *)
Lemma request_returns (endpoint : string) (verb body : option string)
  (useSearchApi : bool) (r : Response) :
  fetch (callOf (baseFor this useSearchApi ++ endpoint) verb body encoded) = Resolved r ->
  succeeds r = true ->
  exists v,
    fst (run (request this endpoint
                {| method := verb; headers := None; body := body |} useSearchApi))
    = Return v.
Proof.
  intros Hfetch Hs. unfold succeeds in Hs.
  apply andb_prop in Hs as [Hok Hbody].
  destruct (ok_not_error_status r Hok) as (H1 & H2 & H3 & H4).
  run_request Hfetch. rewrite H1, H2, H3, H4, Hok. cbn.
  destruct (status r =? 204) eqn:H204.
  - eexists. reflexivity.
  - cbn in Hbody. unfold json.
    destruct (JSON_parse (bodyText r)) as [v|]; [|discriminate].
    eexists. reflexivity.
Qed.

Lemma request_run_returns (endpoint : string) (verb body : option string)
  (useSearchApi : bool) (r : Response) :
  fetch (callOf (baseFor this useSearchApi ++ endpoint) verb body encoded) = Resolved r ->
  succeeds r = true ->
  exists v,
    run (request this endpoint
           {| method := verb; headers := None; body := body |} useSearchApi)
    = (Return v, [callOf (baseFor this useSearchApi ++ endpoint) verb body encoded]).
Proof.
  intros Hfetch Hs.
  destruct (request_returns endpoint verb body useSearchApi r Hfetch Hs) as [v Hv].
  exists v. rewrite (surjective_pairing (run _)), Hv, request_log. reflexivity.
Qed.

(** [search] calls [/search] of the legacy base. *)
Lemma search_uses_legacy_base (cql : string) (params : option SearchParams) :
  exists query,
    snd (run (search this cql params))
    = [callOf (searchBaseUrl this ++ "/search?" ++ query) None None encoded].
Proof.
  unfold search, emptyInit. rewrite request_log. eexists. reflexivity.
Qed.

End RequestFacts.



(** The scenario of the spec: [Retry-After: 30] gives 30 seconds, no
    header gives 60. *)
Example retry_after_scenario :
  retryAfterSeconds (Some "30") = Int 30 /\ retryAfterSeconds None = Int 60.
Proof. split; reflexivity. Qed.

(** ** Connection test *)

(** C10.  [testConnection] always returns and never throws: when the
    request returns, the record says connected with the fixed message; when
    the request throws, the record says not connected, with the message of
    the error, or "Connection failed" when what was thrown is no error.
    It makes the calls of the request and no other. *)
Theorem testConnection_never_throws {runtime : Runtime} {errors : Errors}
  (this : ConfluenceClientImpl) (log : list FetchCall) :
  let outcome := request this "/spaces?limit=1" emptyInit false log in
  fst (testConnection this log)
  = Return match fst outcome with
           | Return _ =>
               {| connected := true;
                  message := "Successfully connected to Confluence" |}
           | Throw (ThrownApi e) =>
               {| connected := false; message := errorMessage e |}
           | Throw (ThrownError m) =>
               {| connected := false; message := m |}
           | Throw (ThrownValue _) =>
               {| connected := false; message := "Connection failed" |}
           end
  /\ snd (testConnection this log) = snd outcome
  /\ (forall t, fst (testConnection this log) <> Throw t).
Proof.
  intros outcome. unfold testConnection, tryCatch, bind.
  subst outcome.
  destruct (request this "/spaces?limit=1" emptyInit false log) as [[v|t] log'];
    cbn.
  - repeat split. discriminate.
  - destruct t; repeat split; discriminate.
Qed.

(** A network failure and a 401 answer, both reported and not thrown. *)
Example testConnection_examples :
  fst (run (testConnection
              (runtime := sampleRuntime
                            (fun _ => Rejected (ThrownError "Network down"))
                            (fun _ => None) 0)
              (errors := sampleErrors) sampleClient))
  = Return {| connected := false; message := "Network down" |}
  /\ fst (run (testConnection
                 (runtime := sampleRuntime
                               (fun _ => Resolved (plainResponse 401 ""))
                               (fun _ => None) 0)
                 (errors := sampleErrors) sampleClient))
     = Return {| connected := false;
                 message := "Authentication failed. Check your credentials." |}
  /\ fst (run (testConnection
                 (runtime := sampleRuntime
                               (fun _ => Resolved (plainResponse 200 "{}"))
                               (fun _ => Some (JObject [])) 0)
                 (errors := sampleErrors) sampleClient))
     = Return {| connected := true;
                 message := "Successfully connected to Confluence" |}.
Proof. repeat split. Qed.

(** ** Escaping of quotation marks *)

Lemma append_assoc (a b c : string) : (a ++ b) ++ c = a ++ b ++ c.
Proof. induction a as [|x a IH]; simpl; [reflexivity|now rewrite IH]. Qed.




(** ** Dates *)

Section DateFacts.

Import EsDate.

Lemma MonthFromTime_range (t : Z) : 0 <= MonthFromTime t <= 11.
Proof.
  unfold MonthFromTime.
  repeat match goal with
         | |- context [if ?b then _ else _] => destruct b
         end; lia.
Qed.

(** Making a day from the year and month of [t] and a date gives the day
    of [t] moved by the difference of the dates. *)
Lemma MakeDay_of_fields (t k : Z) :
  MakeDay (YearFromTime t) (MonthFromTime t) (DateFromTime t - k) = Day t - k.
Proof.
  pose proof (MonthFromTime_range t) as Hm.
  unfold MakeDay.
  rewrite (Z.div_small (MonthFromTime t) 12), (Z.mod_small (MonthFromTime t) 12)
    by lia.
  rewrite Z.add_0_r.
  change (if DaysInYear (YearFromTime t) =? 366 then 1 else 0) with (InLeapYear t).
  unfold DateFromTime, DayWithinYear. lia.
Qed.

(** The length of a year is the distance between its first day and the
    first day of the next year. *)
Lemma DaysInYear_diff (y : Z) : DayFromYear (y + 1) - DayFromYear y = DaysInYear y.
Proof.
  assert (H4 : (y + 1 - 1969) / 4 - (y - 1969) / 4 = if y mod 4 =? 0 then 1 else 0).
  { destruct (Z.eqb_spec (y mod 4) 0); Z.div_mod_to_equations; lia. }
  assert (H100 : (y + 1 - 1901) / 100 - (y - 1901) / 100
                 = if y mod 100 =? 0 then 1 else 0).
  { destruct (Z.eqb_spec (y mod 100) 0); Z.div_mod_to_equations; lia. }
  assert (H400 : (y + 1 - 1601) / 400 - (y - 1601) / 400
                 = if y mod 400 =? 0 then 1 else 0).
  { destruct (Z.eqb_spec (y mod 400) 0); Z.div_mod_to_equations; lia. }
  assert (Ha : y mod 100 = 0 -> y mod 4 = 0) by (Z.div_mod_to_equations; lia).
  assert (Hb : y mod 400 = 0 -> y mod 100 = 0) by (Z.div_mod_to_equations; lia).
  unfold DayFromYear, DaysInYear.
  destruct (Z.eqb_spec (y mod 4) 0), (Z.eqb_spec (y mod 100) 0),
    (Z.eqb_spec (y mod 400) 0); cbn [negb]; lia.
Qed.

(** [YearFromTime] is the year in which the day of [t] lies. *)
Lemma YearFromTime_spec (t : Z) :
  DayFromYear (YearFromTime t) <= Day t < DayFromYear (YearFromTime t + 1).
Proof.
  unfold YearFromTime. set (d := Day t). clearbody d. cbv zeta.
  destruct (DayFromYear (1970 + 400 * d / 146097 + 1) <=? d) eqn:H1.
  - apply Z.leb_le in H1. split; [exact H1|].
    unfold DayFromYear in *. Z.div_mod_to_equations. lia.
  - apply Z.leb_gt in H1.
    destruct (d <? DayFromYear (1970 + 400 * d / 146097)) eqn:H2.
    + apply Z.ltb_lt in H2.
      replace (1970 + 400 * d / 146097 - 1 + 1) with (1970 + 400 * d / 146097)
        by lia.
      split; [|exact H2]. unfold DayFromYear in *. Z.div_mod_to_equations. lia.
    + apply Z.ltb_ge in H2. lia.
Qed.

Lemma DayWithinYear_range (t : Z) : 0 <= DayWithinYear t < 365 + InLeapYear t.
Proof.
  pose proof (YearFromTime_spec t) as H.
  pose proof (DaysInYear_diff (YearFromTime t)) as Hd.
  unfold DayWithinYear, InLeapYear.
  assert (Hy : DaysInYear (YearFromTime t) = 365 \/ DaysInYear (YearFromTime t) = 366).
  { unfold DaysInYear.
    repeat match goal with
           | |- context [if ?b then _ else _] => destruct b
           end; auto. }
  destruct Hy as [Hy|Hy]; rewrite Hy in *; cbn; lia.
Qed.

(** The day of the month lies between 1 and 31. *)
Lemma DateFromTime_range (t : Z) : 1 <= DateFromTime t <= 31.
Proof.
  pose proof (DayWithinYear_range t) as H.
  assert (Hl : InLeapYear t = 0 \/ InLeapYear t = 1).
  { unfold InLeapYear. destruct (_ =? _); auto. }
  unfold DateFromTime, MonthFromTime.
  repeat match goal with
         | |- context [if ?b then _ else _] => destruct b eqn:?
         end;
  repeat match goal with
         | H : (_ <? _) = true |- _ => apply Z.ltb_lt in H
         | H : (_ <? _) = false |- _ => apply Z.ltb_ge in H
         end; unfold monthStart; cbn [Z.eqb Pos.eqb]; lia.
Qed.

(** [setDate(getDate() - k)] moves the time value back by [k] days,
    in any zone of fixed offset. *)
Lemma setDate_back (tza now k : Z) :
  setDate tza (Some now) (minus (getDate tza (Some now)) (Int k))
  = TimeClip (now - k * msPerDay).
Proof.
  unfold setDate, getDate, minus. f_equal.
  rewrite MakeDay_of_fields. unfold MakeDate, Day, TimeWithinDay.
  pose proof (Z.div_mod (now + tza) msPerDay) as H.
  unfold msPerDay in *. lia.
Qed.

Lemma Day_back (now k : Z) : Day (now - k * msPerDay) = Day now - k.
Proof.
  unfold Day.
  replace (now - k * msPerDay) with (now + (- k) * msPerDay) by lia.
  rewrite Z.div_add by (unfold msPerDay; lia). lia.
Qed.

Lemma without_app (c : ascii) (a b : string) :
  without c (a ++ b) = without c a && without c b.
Proof.
  induction a as [|x a IH]; simpl; [reflexivity|].
  rewrite IH, andb_assoc. reflexivity.
Qed.

Lemma splitFirst_app (c : ascii) (a rest : string) :
  without c a = true -> splitFirst c (a ++ String c rest) = a.
Proof.
  induction a as [|x a IH]; simpl; intros H.
  - rewrite Ascii.eqb_refl. reflexivity.
  - apply andb_prop in H as [Hx Ha]. apply negb_true_iff in Hx.
    rewrite Hx, IH by assumption. reflexivity.
Qed.

Lemma digitChar_not_T (d : Z) : Ascii.eqb (digitChar d) "T" = false.
Proof.
  unfold digitChar.
  pose proof (Z.mod_pos_bound d 10 ltac:(lia)) as H.
  assert (Hcases : d mod 10 = 0 \/ d mod 10 = 1 \/ d mod 10 = 2 \/ d mod 10 = 3
                   \/ d mod 10 = 4 \/ d mod 10 = 5 \/ d mod 10 = 6
                   \/ d mod 10 = 7 \/ d mod 10 = 8 \/ d mod 10 = 9) by lia.
  repeat destruct Hcases as [->|Hcases]; try reflexivity.
  rewrite Hcases. reflexivity.
Qed.

Lemma padDigits_without_T (n : nat) (z : Z) : without "T" (padDigits n z) = true.
Proof.
  revert z. induction n as [|n IH]; intros z; [reflexivity|].
  simpl. rewrite without_app, IH. simpl. rewrite digitChar_not_T. reflexivity.
Qed.

Lemma isoDate_without_T (t : Z) : without "T" (isoDate t) = true.
Proof.
  unfold isoDate, isoYear.
  destruct ((0 <=? YearFromTime t) && (YearFromTime t <=? 9999)).
  - rewrite !without_app, !padDigits_without_T. reflexivity.
  - destruct (YearFromTime t <? 0);
      rewrite !without_app, !padDigits_without_T; reflexivity.
Qed.

(** The calendar date of a time value depends on its day only. *)
Lemma isoDate_of_day (t d : Z) :
  Day t = d -> isoDate t = isoDate (d * msPerDay).
Proof.
  intros H.
  assert (Hd : Day (d * msPerDay) = Day t).
  { unfold Day. rewrite Z.div_mul by (unfold msPerDay; lia). auto. }
  unfold isoDate, DateFromTime, MonthFromTime, InLeapYear, DayWithinYear,
    YearFromTime.
  rewrite Hd. reflexivity.
Qed.

(** The cutoff of [confluence_search_recent]: the calendar date of the
    time value [days] days before now. *)
Lemma recentDateStr_spec (now tza days : Z) :
  Z.abs (now - days * msPerDay) <= 8640000000000000 ->
  recentDateStr now tza days = Some (isoDate (now - days * msPerDay)).
Proof.
  intros Hrange. unfold recentDateStr.
  rewrite setDate_back. unfold TimeClip.
  replace (Z.abs (now - days * msPerDay) <=? 8640000000000000) with true
    by (symmetry; apply Z.leb_le; exact Hrange).
  unfold toISOString.
  match goal with
  | |- context [isoDate ?t ++ "T" ++ ?r] =>
      change (isoDate t ++ "T" ++ r) with (isoDate t ++ String "T" r)
  end.
  rewrite splitFirst_app by apply isoDate_without_T. reflexivity.
Qed.

End DateFacts.

(** ** Tool handlers *)

Section ToolFacts.

Context {runtime : Runtime} {errors : Errors} {renderers : Renderers}.

Variable client : ConfluenceClientImpl.
Variable encoded : string.
Hypothesis btoa_ok : btoa (plainCredentials client) = Some encoded.



(** A handler whose action is one client call followed by building the
    response makes the calls of that client call and no other. *)
Lemma handler_log {A : Type} (m : M A) (f : A -> ToolResponse) :
  snd (run (handler (bind m (fun a => ret (f a))))) = snd (run m).
Proof.
  unfold run, handler, tryCatch, bind, ret.
  destruct (m []) as [[a|t] log]; reflexivity.
Qed.

Ltac tool_log :=
  unfold confluence_update_page, confluence_update_blogpost,
    confluence_update_comment, confluence_update_custom_content,
    confluence_update_page_property, confluence_update_space_property,
    confluence_search_by_label, confluence_search_recent;
  rewrite handler_log;
  unfold updatePage, updateBlogPost, updateComment, updateCustomContent,
    updatePageProperty, updateSpaceProperty, writeInit;
  rewrite (request_log _ encoded btoa_ok); reflexivity.

(** [confluence_update_page] sends the version it is given plus one. *)
Lemma update_page_sends_next_version (pageId title body bodyRepresentation : string)
  (version : Z) (versionMessage status : option string) :
  snd (run (confluence_update_page client pageId title body bodyRepresentation
              version versionMessage status))
  = [callOf (baseUrl client ++ "/pages/" ++ pageId) (Some "PUT")
       (Some (JSON_stringify
          (JObject [("id", JString pageId);
                    ("title", JString title);
                    ("body", contentBody bodyRepresentation body);
                    ("version", JObject [("number", JNumber (Int (version + 1)));
                                         ("message", optionalString versionMessage)]);
                    ("status", optionalString status)])))
       encoded].
Proof. tool_log. Qed.

(** [confluence_update_blogpost] sends the version it is given plus one. *)
Lemma update_blogpost_sends_next_version
  (blogPostId title body bodyRepresentation : string)
  (version : Z) (versionMessage status : option string) :
  snd (run (confluence_update_blogpost client blogPostId title body
              bodyRepresentation version versionMessage status))
  = [callOf (baseUrl client ++ "/blogposts/" ++ blogPostId) (Some "PUT")
       (Some (JSON_stringify
          (JObject [("id", JString blogPostId);
                    ("title", JString title);
                    ("body", contentBody bodyRepresentation body);
                    ("version", JObject [("number", JNumber (Int (version + 1)));
                                         ("message", optionalString versionMessage)]);
                    ("status", optionalString status)])))
       encoded].
Proof. tool_log. Qed.

(** [confluence_update_comment] sends the version it is given plus one. *)
Lemma update_comment_sends_next_version (commentId body bodyRepresentation : string)
  (version : Z) (versionMessage : option string) :
  snd (run (confluence_update_comment client commentId body bodyRepresentation
              version versionMessage))
  = [callOf (baseUrl client ++ "/comments/" ++ commentId) (Some "PUT")
       (Some (JSON_stringify
          (JObject [("body", contentBody bodyRepresentation body);
                    ("version", JObject [("number", JNumber (Int (version + 1)));
                                         ("message", optionalString versionMessage)])])))
       encoded].
Proof. tool_log. Qed.

(** [confluence_update_custom_content] sends the version it is given plus
    one. *)
Lemma update_custom_content_sends_next_version (customContentId : string)
  (title body bodyRepresentation : option string) (version : Z)
  (status : option string) :
  exists bodyValue,
    snd (run (confluence_update_custom_content client customContentId title body
                bodyRepresentation version status))
    = [callOf (baseUrl client ++ "/custom-content/" ++ customContentId) (Some "PUT")
         (Some (JSON_stringify
            (JObject [("id", JString customContentId);
                      ("title", optionalString title);
                      ("body", bodyValue);
                      ("version", JObject [("number", JNumber (Int (version + 1)))]);
                      ("status", optionalString status)])))
         encoded].
Proof. eexists. tool_log. Qed.

(** [confluence_update_page_property] sends the version it is given,
    with nothing added. *)
Lemma update_page_property_sends_same_version (pageId propertyKey : string)
  (value : JsValue) (version : Z) :
  snd (run (confluence_update_page_property client pageId propertyKey value version))
  = [callOf (baseUrl client ++ "/pages/" ++ pageId ++ "/properties/" ++ propertyKey)
       (Some "PUT")
       (Some (JSON_stringify
          (JObject [("key", JString propertyKey);
                    ("value", value);
                    ("version", JObject [("number", JNumber (Int version))])])))
       encoded].
Proof. tool_log. Qed.

(** [confluence_update_space_property] sends the version it is given,
    with nothing added. *)
Lemma update_space_property_sends_same_version (spaceId propertyKey : string)
  (value : JsValue) (version : Z) :
  snd (run (confluence_update_space_property client spaceId propertyKey value version))
  = [callOf (baseUrl client ++ "/spaces/" ++ spaceId ++ "/properties/" ++ propertyKey)
       (Some "PUT")
       (Some (JSON_stringify
          (JObject [("value", value);
                    ("version", JObject [("number", JNumber (Int version))])])))
       encoded].
Proof. tool_log. Qed.


(** C6.  [search_recent] takes as cutoff the calendar date, year-month-day,
    of the time value [days] days before now, which lies [days] days
    before the day of now, and calls [search] with the query built from
    it.  On 2024-06-15, with 7 days and no filter, the cutoff is
    2024-06-08 and the query is [lastModified >= "2024-06-08" AND
    (type=page OR type=blogpost) ORDER BY lastModified DESC]. *)
Theorem search_recent_cutoff (days lim : Z) (format : ResponseFormat) :
  let cutoff := Date_now - days * EsDate.msPerDay in
  Z.abs cutoff <= 8640000000000000 ->
  recentDateStr Date_now LocalTZA days = Some (EsDate.isoDate cutoff)
  /\ EsDate.Day cutoff = EsDate.Day Date_now - days
  /\ snd (run (confluence_search_recent client days None None lim format))
     = snd (run (search client (searchRecentCql (EsDate.isoDate cutoff) None None)
                   (Some {| limit := Some lim; cursor := None;
                            excerpt := Some true |})))
  /\ (EsDate.Day Date_now = 19889 -> days = 7 ->
      EsDate.isoDate cutoff = "2024-06-08"
      /\ searchRecentCql (EsDate.isoDate cutoff) None None
         = "lastModified >= " ++ quote ++ "2024-06-08" ++ quote
           ++ " AND (type=page OR type=blogpost) ORDER BY lastModified DESC").
Proof.
  intros cutoff Hrange.
  pose proof (recentDateStr_spec Date_now LocalTZA days Hrange) as Hstr.
  fold cutoff in Hstr.
  split; [exact Hstr|].
  split; [apply Day_back|].
  split.
  { unfold confluence_search_recent. rewrite Hstr. apply handler_log. }
  intros Hday Hdays.
  assert (Hiso : EsDate.isoDate cutoff = "2024-06-08").
  { rewrite (isoDate_of_day cutoff 19882).
    - vm_compute. reflexivity.
    - unfold cutoff. rewrite Day_back. lia. }
  split; [exact Hiso|]. rewrite Hiso. reflexivity.
Qed.

End ToolFacts.

(** C1, at the update of a page property whose current version is 3: the
    body that goes out holds version number 3, where the updates of
    pages, blog posts, comments and custom content send the number plus
    one. *)
Theorem update_page_property_sends_version_unchanged :
  let rt := sampleRuntime (fun _ => Resolved (plainResponse 200 "{}"))
              (fun _ => Some (JObject [])) 0 in
  snd (run (confluence_update_page_property (runtime := rt) (errors := sampleErrors)
              (renderers := sampleRenderers) sampleClient
              "123" "color" (JString "red") 3))
  = [callOf "https://acme.atlassian.net/wiki/api/v2/pages/123/properties/color"
       (Some "PUT")
       (Some (printJson
          (JObject [("key", JString "color");
                    ("value", JString "red");
                    ("version", JObject [("number", JNumber (Int 3))])])))
       "ann@acme.test:secret"]
  /\ snd (run (confluence_update_page (runtime := rt) (errors := sampleErrors)
                 (renderers := sampleRenderers) sampleClient
                 "123" "Title" "<p>text</p>" "storage" 3 None None))
     = [callOf "https://acme.atlassian.net/wiki/api/v2/pages/123"
          (Some "PUT")
          (Some (printJson
             (JObject [("id", JString "123");
                       ("title", JString "Title");
                       ("body", contentBody "storage" "<p>text</p>");
                       ("version", JObject [("number", JNumber (Int 4));
                                            ("message", JUndefined)]);
                       ("status", JUndefined)])))
          "ann@acme.test:secret"].
Proof. split; reflexivity. Qed.


(** A permanent delete on the sample client. *)
Example delete_page_purge_example :
  let rt := sampleRuntime (fun _ => Resolved (plainResponse 204 "")) (fun _ => None) 0 in
  run (confluence_delete_page (runtime := rt) (errors := sampleErrors)
         (renderers := sampleRenderers) sampleClient "98765" true)
  = (Return
       {| content :=
            [printJson (JObject [("success", JBool true);
                                 ("message",
                                  JString "Page 98765 permanently deleted")])];
          isError := false |},
     [callOf "https://acme.atlassian.net/wiki/api/v2/pages/98765?purge=true"
        (Some "DELETE") None "ann@acme.test:secret"]).
Proof. reflexivity. Qed.


(** A label with a quotation mark in it. *)
Example search_by_label_escapes :
  searchByLabelCql ("a" ++ quote ++ "b") None None
  = "label=" ++ quote ++ "a" ++ String backslashChar quote ++ "b" ++ quote.
Proof. reflexivity. Qed.

(** At noon of 2024-06-15, seven days back is 2024-06-08. *)
Lemma search_recent_cutoff_witness :
  let rt := sampleRuntime (fun _ => Resolved (plainResponse 200 "{}"))
              (fun _ => Some (JObject [("results", JArray [])])) 1718452800000 in
  recentDateStr (@Date_now rt) (@LocalTZA rt) 7 = Some "2024-06-08".
Proof.
  intros rt.
  destruct (@search_recent_cutoff rt sampleErrors sampleRenderers sampleClient
              7 25 FormatJson ltac:(vm_compute; discriminate)) as (H & _ & _ & _).
  rewrite H. vm_compute. reflexivity.
Defined.

(** ** Paginated responses in tabular mode *)

(** C8, as the code has it.  In the tabular rendering of a paginated
    response the line after the count is the "more available" flag if and
    only if [_links.next] is truthy: there, and not the empty string (nor
    [null], [false] or zero); no flag is shown when [_links.next] is absent.
    A response with no results renders the heading, the count 0, the
    flag if any, and the "no items found" line, and no table. *)
Theorem more_flag_iff_next_truthy {renderers : Renderers}
  (data : JsValue) (entityType : string) :
  (nth_error (paginatedLines data entityType) 3 = Some moreAvailableLine
   <-> truthy (field "next" (field "_links" data)) = true)
  /\ (forall s, field "next" (field "_links" data) = JString s ->
      (nth_error (paginatedLines data entityType) 3 = Some moreAvailableLine
       <-> s <> ""))
  /\ (nextPresent data = false ->
      nth_error (paginatedLines data entityType) 3 <> Some moreAvailableLine)
  /\ (resultsOf data = [] ->
      formatPaginatedAsMarkdown data entityType
      = joinLines (["## " ++ capitalize entityType; ""; "**Showing:** 0"]
                   ++ (if truthy (field "next" (field "_links" data))
                       then [moreAvailableLine] else [])
                   ++ [""; noItemsLine])).
Proof.
  assert (Hmore : hasMore data = truthy (field "next" (field "_links" data))).
  { unfold hasMore, optionalMember, getMember, field.
    destruct data as [| |b|n|s|items|fields]; try reflexivity.
    destruct (lookup "_links" fields); reflexivity. }
  assert (Hflag : nth_error (paginatedLines data entityType) 3 = Some moreAvailableLine
                  <-> truthy (field "next" (field "_links" data)) = true).
  { unfold paginatedLines. rewrite Hmore.
    destruct (truthy (field "next" (field "_links" data)));
      destruct (Z.of_nat (Datatypes.length (resultsOf data)) =? 0); cbn;
      split; intros H; try reflexivity; discriminate H. }
  split; [exact Hflag|].
  split.
  { intros s Hs. rewrite Hflag, Hs. cbn. apply truthyString_true. }
  split.
  { intros Hn. rewrite Hflag. unfold nextPresent in Hn.
    destruct (field "next" (field "_links" data)); cbn; congruence. }
  intros Hempty. unfold formatPaginatedAsMarkdown, paginatedLines.
  rewrite Hmore, Hempty. cbn.
  destruct (truthy (field "next" (field "_links" data))); reflexivity.
Qed.

(** C8 as the spec words it fails for a response whose [_links.next] is
    there and is the empty string: the reference is present, and the
    rendering has no "more available" line. *)
Lemma empty_next_counterexample :
  let data := JObject [("results", JArray [JObject [("id", JString "1")]]);
                       ("_links", JObject [("next", JString "")])] in
  isPaginatedResponse data = true
  /\ nextPresent data = true
  /\ paginatedLines (renderers := sampleRenderers) data "pages"
     = ["## Pages"; ""; "**Showing:** 1"; "";
        "| ID | Title | Space ID | Status | Version |"]
  /\ ~ (nth_error (paginatedLines (renderers := sampleRenderers) data "pages") 3
        = Some moreAvailableLine
        <-> nextPresent data = true).
Proof.
  intros data. repeat split.
  intros [_ H]. specialize (H eq_refl). vm_compute in H. discriminate H.
Qed.

(** With a next link the flag is shown, and an empty page of results gets
    the placeholder. *)
Example paginated_rendering_example :
  formatPaginatedAsMarkdown (renderers := sampleRenderers)
    (JObject [("results", JArray []);
              ("_links", JObject [("next", JString "/wiki/api/v2/pages?cursor=abc")])])
    "pages"
  = joinLines ["## Pages"; ""; "**Showing:** 0"; "**More available:** Yes"; "";
               "_No items found._"].
Proof. reflexivity. Qed.

(* ===================================================================== *)
(** * Properties of the rest of the code *)
(* ===================================================================== *)

(** ** Query strings *)

Lemma N_of_ascii_lt_256 (c : ascii) : (N_of_ascii c < 256)%N.
Proof. destruct c as [[] [] [] [] [] [] [] []]; vm_compute; reflexivity. Qed.

(** Encoding one more character in front adds only characters of the
    encoded alphabet. *)
Lemma formUrlEncode_step_chars (c : ascii) (s : string) :
  allChars encodedChar (formUrlEncode (String c s))
  = allChars encodedChar (formUrlEncode s).
Proof. destruct c as [[] [] [] [] [] [] [] []]; reflexivity. Qed.

Lemma formUrlEncode_chars (s : string) :
  allChars encodedChar (formUrlEncode s) = true.
Proof.
  induction s as [|c s IH]; [reflexivity|].
  rewrite formUrlEncode_step_chars. exact IH.
Qed.

Lemma allChars_without (p : ascii -> bool) (c : ascii) (s : string) :
  p c = false -> allChars p s = true -> without c s = true.
Proof.
  intros Hc. induction s as [|a s IH]; simpl; [reflexivity|].
  intros H. apply andb_prop in H as [Ha Hs].
  rewrite IH by assumption. rewrite andb_true_r.
  destruct (Ascii.eqb_spec a c) as [->|]; [congruence|reflexivity].
Qed.

Lemma formUrlEncode_without_amp (s : string) : without "&" (formUrlEncode s) = true.
Proof. apply (allChars_without encodedChar); [reflexivity|apply formUrlEncode_chars]. Qed.

Lemma formUrlEncode_without_eq (s : string) : without "=" (formUrlEncode s) = true.
Proof. apply (allChars_without encodedChar); [reflexivity|apply formUrlEncode_chars]. Qed.

Lemma formUrlDecode_step (c : ascii) (s : string) :
  formUrlDecode (formUrlEncode (String c s))
  = String c (formUrlDecode (formUrlEncode s)).
Proof. destruct c as [[] [] [] [] [] [] [] []]; reflexivity. Qed.

(** Decoding gives back what was encoded. *)
Lemma formUrlDecode_encode (s : string) : formUrlDecode (formUrlEncode s) = s.
Proof.
  induction s as [|c s IH]; [reflexivity|].
  rewrite formUrlDecode_step, IH. reflexivity.
Qed.

Lemma splitOn_without (c : ascii) (a : string) :
  without c a = true -> splitOn c a = [a].
Proof.
  induction a as [|x a IH]; simpl; intros H; [reflexivity|].
  apply andb_prop in H as [Hx Ha]. apply negb_true_iff in Hx.
  rewrite Hx, IH by assumption. reflexivity.
Qed.

Lemma splitOn_app (c : ascii) (a b : string) :
  without c a = true -> splitOn c (a ++ String c b) = a :: splitOn c b.
Proof.
  induction a as [|x a IH]; simpl; intros H.
  - rewrite Ascii.eqb_refl. reflexivity.
  - apply andb_prop in H as [Hx Ha]. apply negb_true_iff in Hx.
    rewrite Hx, IH by assumption. reflexivity.
Qed.

Lemma splitAtFirst_app (c : ascii) (a b : string) :
  without c a = true -> splitAtFirst c (a ++ String c b) = (a, b).
Proof.
  induction a as [|x a IH]; simpl; intros H.
  - rewrite Ascii.eqb_refl. reflexivity.
  - apply andb_prop in H as [Hx Ha]. apply negb_true_iff in Hx.
    rewrite Hx, IH by assumption. reflexivity.
Qed.

Lemma pairString_without_amp (nv : string * string) :
  without "&" (pairString nv) = true.
Proof.
  unfold pairString. rewrite without_app. simpl.
  rewrite !formUrlEncode_without_amp. reflexivity.
Qed.

Lemma searchParamsToString_cons (nv : string * string) (p : URLSearchParams) :
  searchParamsToString (nv :: p)
  = match p with
    | [] => pairString nv
    | _ :: _ => pairString nv ++ String "&" (searchParamsToString p)
    end.
Proof.
  destruct nv as [n v]. destruct p as [|[n' v'] p']; unfold pairString; simpl.
  - reflexivity.
  - rewrite !append_assoc. reflexivity.
Qed.

Lemma searchParamsToString_not_empty (nv : string * string) (p : URLSearchParams) :
  searchParamsToString (nv :: p) <> "".
Proof.
  rewrite searchParamsToString_cons. unfold pairString.
  destruct p; destruct (formUrlEncode (fst nv)); simpl; discriminate.
Qed.

Lemma splitOn_searchParamsToString (nv : string * string) (p : URLSearchParams) :
  splitOn "&" (searchParamsToString (nv :: p)) = map pairString (nv :: p).
Proof.
  revert nv. induction p as [|nv' p IH]; intros nv.
  - rewrite searchParamsToString_cons.
    apply splitOn_without, pairString_without_amp.
  - rewrite searchParamsToString_cons.
    rewrite splitOn_app by apply pairString_without_amp.
    rewrite IH. reflexivity.
Qed.

(** Reading a serialized list of parameters gives the list back: no name
    or value can add, hide or change a parameter. *)
Lemma parseQuery_searchParamsToString (p : URLSearchParams) :
  parseQuery (searchParamsToString p) = p.
Proof.
  destruct p as [|nv p]; [reflexivity|].
  unfold parseQuery.
  destruct (searchParamsToString (nv :: p)) eqn:E.
  - exfalso. exact (searchParamsToString_not_empty nv p E).
  - rewrite <- E, splitOn_searchParamsToString, map_map.
    rewrite <- (map_id (nv :: p)) at 2. apply map_ext.
    intros [n v]. unfold pairString. cbn [fst snd].
    rewrite splitAtFirst_app by apply formUrlEncode_without_eq.
    rewrite !formUrlDecode_encode. reflexivity.
Qed.

(** Setting a name that is not there appends it. *)
Lemma searchParamsSet_fresh (name value : string) (p : URLSearchParams) :
  ~ In name (map fst p) -> searchParamsSet name value p = (p ++ [(name, value)])%list.
Proof.
  induction p as [|[n v] p IH]; simpl; intros H; [reflexivity|].
  destruct (String.eqb_spec n name) as [->|Hn]; [tauto|].
  rewrite IH by tauto. reflexivity.
Qed.

Lemma addQueryParam_defined (acc : URLSearchParams) (entry : string * JsValue) :
  definedParam entry = true ->
  addQueryParam acc entry
  = searchParamsSet (fst (wireParam entry)) (snd (wireParam entry)) acc.
Proof.
  destruct entry as [k v]. unfold definedParam, addQueryParam, wireParam.
  cbn [fst snd]. intros H.
  destruct v; try discriminate H;
    destruct (String.eqb k "bodyFormat" && _); reflexivity.
Qed.

Lemma addQueryParam_undefined (acc : URLSearchParams) (entry : string * JsValue) :
  definedParam entry = false -> addQueryParam acc entry = acc.
Proof.
  destruct entry as [k v]. unfold definedParam, addQueryParam. cbn [snd].
  destruct v; intros H; try discriminate H; reflexivity.
Qed.

(** The loop of [buildQueryString] on entries whose names on the wire
    differ from one another and from those set before. *)
Lemma fold_addQueryParam (params : Params) (acc : URLSearchParams) :
  NoDup (map fst acc ++ map fst (map wireParam (filter definedParam params))) ->
  fold_left addQueryParam params acc
  = (acc ++ map wireParam (filter definedParam params))%list.
Proof.
  revert acc. induction params as [|entry params IH]; intros acc; simpl.
  - intros _. rewrite app_nil_r. reflexivity.
  - destruct (definedParam entry) eqn:Hd; intros Hnd.
    + rewrite addQueryParam_defined by exact Hd.
      simpl in Hnd.
      rewrite searchParamsSet_fresh.
      * rewrite IH.
        -- rewrite <- app_assoc. reflexivity.
        -- rewrite map_app, <- app_assoc. exact Hnd.
      * apply NoDup_remove_2 in Hnd. intros Hin. apply Hnd.
        apply in_or_app. left. exact Hin.
    + rewrite addQueryParam_undefined by exact Hd. apply IH. exact Hnd.
Qed.

(** [buildQueryString] gives the empty string exactly when no entry has a
    value, and a string that starts with a question mark otherwise. *)
Theorem buildQueryString_empty_iff (params : Params) :
  (buildQueryString params = "" <-> filter definedParam params = [])
  /\ (filter definedParam params <> [] ->
      exists q, q <> "" /\ buildQueryString params = "?" ++ q).
Proof.
  assert (Hfold : forall ps acc,
             (filter definedParam ps = [] -> fold_left addQueryParam ps acc = acc)
             /\ (filter definedParam ps <> [] \/ acc <> [] ->
                 fold_left addQueryParam ps acc <> [])).
  { induction ps as [|entry ps IH]; intros acc; simpl.
    - split; [reflexivity|]. intros [H|H]; [congruence|exact H].
    - destruct (definedParam entry) eqn:Hd.
      + split; [discriminate|]. intros _.
        apply (proj2 (IH _)). right.
        rewrite addQueryParam_defined by exact Hd.
        destruct acc as [|[n v] acc]; simpl; [discriminate|].
        destruct (String.eqb n _); discriminate.
      + rewrite addQueryParam_undefined by exact Hd. apply IH. }
  unfold buildQueryString.
  destruct (filter definedParam params) as [|e es] eqn:Hf.
  - rewrite (proj1 (Hfold params [])) by exact Hf. simpl.
    split; [tauto|]. intros H. congruence.
  - assert (Hne : fold_left addQueryParam params [] <> []).
    { apply (proj2 (Hfold params [])). left. rewrite Hf. discriminate. }
    destruct (fold_left addQueryParam params []) as [|nv p]; [congruence|].
    pose proof (searchParamsToString_not_empty nv p) as Hs.
    destruct (searchParamsToString (nv :: p)) as [|c q] eqn:E; [congruence|].
    simpl. split; [split; discriminate|].
    intros _. eexists. split; [|reflexivity]. discriminate.
Qed.

Lemma buildQueryString_nodup (params : Params) :
  NoDup (map fst (map wireParam (filter definedParam params))) ->
  buildQueryString params
  = match map wireParam (filter definedParam params) with
    | [] => ""
    | _ :: _ => "?" ++ searchParamsToString (map wireParam (filter definedParam params))
    end.
Proof.
  intros Hnd. unfold buildQueryString.
  rewrite fold_addQueryParam by exact Hnd. cbn [app].
  destruct (map wireParam (filter definedParam params)) as [|nv p]; [reflexivity|].
  pose proof (searchParamsToString_not_empty nv p) as Hs.
  destruct (searchParamsToString (nv :: p)); [congruence|reflexivity].
Qed.



(** An empty [bodyFormat] keeps its own name, and [false] and zero are
    sent. *)
Example buildQueryString_edge_cases :
  buildQueryString [("bodyFormat", JString "")] = "?bodyFormat="
  /\ buildQueryString [("excerpt", JBool false); ("limit", JNumber (Int 0))]
     = "?excerpt=false&limit=0"
  /\ buildQueryString [("title", JString "a&b=c d")] = "?title=a%26b%3Dc+d".
Proof. repeat split. Qed.

(** ** The operations of the client *)

Create HintDb client_methods.

#[local] Hint Unfold
  listSpaces getSpace createSpace deleteSpace listPages getPage createPage
  updatePage deletePage getPagesBySpaceId getPageChildren getPageAncestors
  getPageDescendants getPageLabels addPageLabels removePageLabel getPageLikes
  likePage unlikePage getPageVersions getPageVersion getPageProperties
  getPageProperty createPageProperty updatePageProperty deletePageProperty
  getPageAttachments getPageComments getPageOperations listBlogPosts
  getBlogPost createBlogPost updateBlogPost deleteBlogPost
  getBlogPostsBySpaceId getBlogPostLabels addBlogPostLabels
  removeBlogPostLabel getBlogPostVersions getBlogPostAttachments
  getBlogPostComments listComments getComment createComment updateComment
  deleteComment listAttachments getAttachment deleteAttachment
  getAttachmentLabels listLabels getLabel getLabelPages getLabelBlogPosts
  listTasks getTask updateTask listUsers getUser listCustomContent
  getCustomContent createCustomContent updateCustomContent
  deleteCustomContent getSpacePermissions createSpacePermission
  deleteSpacePermission getSpaceProperties getSpaceProperty
  createSpaceProperty updateSpaceProperty deleteSpaceProperty listDatabases
  getDatabase listFolders getFolder listWhiteboards getWhiteboard
  : client_methods.

Section SurfaceFacts.

Context {runtime : Runtime} {runtimeErrors : RuntimeErrors}.

Variable this : ConfluenceClientImpl.

Lemma bind_log_silent {A B : Type} (m : M A) (k : A -> M B) :
  silent k -> snd (run (bind m k)) = snd (run m).
Proof.
  intros Hk. unfold run, bind. destruct (m []) as [[a|t] log]; cbn; auto.
Qed.

Lemma silent_ret {A B : Type} (f : A -> B) : silent (fun a => ret (f a)).
Proof. intros a log. reflexivity. Qed.

Lemma silent_resultsOfResponse : silent resultsOfResponse.
Proof. intros a log. destruct a; reflexivity. Qed.

(** Without encoded credentials a request throws before any call. *)
Lemma request_blocked (endpoint : string) (options : RequestInit)
  (useSearchApi : bool) (log : list FetchCall) :
  btoa (plainCredentials this) = None ->
  request this endpoint options useSearchApi log
  = (Throw (ThrownError (btoaErrorMessage (plainCredentials this))), log).
Proof.
  intros Hb. unfold request, bind, getAuthHeaders.
  fold (plainCredentials this). rewrite Hb. reflexivity.
Qed.

(** When [btoa] rejects the credentials (a character above 255 in the
    email or the token), every operation throws that error and nothing is
    sent. *)
Theorem operation_sends_nothing_without_encoding (op : Operation) :
  btoa (plainCredentials this) = None ->
  run (perform this op)
  = (Throw (ThrownError (btoaErrorMessage (plainCredentials this))), []).
Proof.
  intros Hb.
  destruct op; cbn [perform]; autounfold with client_methods; unfold search;
    unfold run, bind; cbv zeta; rewrite !(request_blocked _ _ _ _ Hb);
    reflexivity.
Qed.

Variable encoded : string.
Hypothesis btoa_ok : btoa (plainCredentials this) = Some encoded.

(** Every operation makes exactly one call of [fetch]: to the legacy base
    for [search] and to the resource base for every other operation, with
    the three authentication headers and no other, with one of the verbs
    GET (no method given), POST, PUT or DELETE, and with a body only for
    POST and PUT. *)
Theorem operation_makes_one_call (op : Operation) :
  exists endpoint verb body,
    snd (run (perform this op))
    = [callOf ((if isSearch op then searchBaseUrl this else baseUrl this) ++ endpoint)
         verb body encoded]
    /\ (verb = None \/ verb = Some "POST" \/ verb = Some "PUT"
        \/ verb = Some "DELETE")
    /\ (body <> None -> verb = Some "POST" \/ verb = Some "PUT").
Proof.
  destruct op; cbn [perform isSearch]; autounfold with client_methods;
    unfold search; cbv zeta;
    rewrite ?bind_log_silent
      by first [apply silent_resultsOfResponse | apply (silent_ret (fun _ => tt))
               | apply (silent_ret (fun _ => JUndefined))];
    unfold emptyInit, writeInit;
    rewrite (request_log this encoded btoa_ok);
    do 3 eexists; (split; [reflexivity|]);
    (split; [tauto|]); intros H; try tauto; congruence.
Qed.

End SurfaceFacts.

(** The page list of the sample client, 25 a page. *)
Lemma operation_makes_one_call_witness :
  let rt := sampleRuntime (fun _ => Resolved (plainResponse 200 "{}"))
              (fun _ => Some (JObject [])) 0 in
  exists endpoint verb body,
    snd (run (perform (runtime := rt) (runtimeErrors := sampleRuntimeErrors)
                sampleClient (OpListPages (Some [("limit", JNumber (Int 25))]))))
    = [callOf ("https://acme.atlassian.net/wiki/api/v2" ++ endpoint) verb body
         "ann@acme.test:secret"]
    /\ (verb = None \/ verb = Some "POST" \/ verb = Some "PUT"
        \/ verb = Some "DELETE")
    /\ (body <> None -> verb = Some "POST" \/ verb = Some "PUT").
Proof.
  intros rt.
  exact (@operation_makes_one_call rt sampleRuntimeErrors sampleClient
           "ann@acme.test:secret" eq_refl
           (OpListPages (Some [("limit", JNumber (Int 25))]))).
Defined.

Lemma operation_sends_nothing_without_encoding_witness :
  run (perform (runtime := rejectingRuntime) (runtimeErrors := sampleRuntimeErrors)
         sampleClient (OpDeletePage "98765" (Some true)))
  = (Throw (ThrownError "Invalid character"), []).
Proof.
  exact (@operation_sends_nothing_without_encoding rejectingRuntime
           sampleRuntimeErrors sampleClient (OpDeletePage "98765" (Some true))
           eq_refl).
Defined.

Section SuccessFacts.

Context {runtime : Runtime} {errors : Errors} {renderers : Renderers}
  {runtimeErrors : RuntimeErrors}.

Variable this : ConfluenceClientImpl.
Variable encoded : string.
Hypothesis btoa_ok : btoa (plainCredentials this) = Some encoded.

Ltac request_answered r Hfetch Hok :=
  let H1 := fresh in let H2 := fresh in let H3 := fresh in let H4 := fresh in
  destruct (ok_not_error_status r Hok) as (H1 & H2 & H3 & H4);
  unfold run, request, bind, getAuthHeaders, awaitFetch;
  fold (plainCredentials this); rewrite btoa_ok; cbn;
  lazymatch type of Hfetch with
  | fetch ?c' = _ =>
      match goal with |- context [fetch ?c] => change c with c' end
  end;
  rewrite Hfetch; cbn [fst]; rewrite H1, H2, H3, H4, Hok; cbn [negb].

(** For a response with a success status the request throws no error of
    the taxonomy: 204 gives [undefined] and the body is not read; any
    other success status gives the body as JSON, or throws the
    [SyntaxError] of [JSON.parse] when the body is no JSON. *)
Theorem request_success_result (endpoint : string) (verb body : option string)
  (useSearchApi : bool) (r : Response) :
  fetch (callOf (baseFor this useSearchApi ++ endpoint) verb body encoded) = Resolved r ->
  ok r = true ->
  fst (run (request this endpoint
              {| method := verb; headers := None; body := body |} useSearchApi))
  = if status r =? 204 then Return JUndefined
    else match JSON_parse (bodyText r) with
         | Some v => Return v
         | None => Throw (ThrownError (syntaxErrorMessage (bodyText r)))
         end.
Proof.
  intros Hfetch Hok.
  request_answered r Hfetch Hok.
  destruct (status r =? 204); [reflexivity|].
  unfold json. destruct (JSON_parse (bodyText r)); reflexivity.
Qed.

Lemma request_no_content (endpoint : string) (verb body : option string)
  (r : Response) :
  alwaysAnswers r -> status r = 204 ->
  run (request this endpoint {| method := verb; headers := None; body := body |} false)
  = (Return JUndefined, [callOf (baseUrl this ++ endpoint) verb body encoded]).
Proof.
  intros Hnet Hs.
  rewrite (surjective_pairing (run _)).
  rewrite (request_log this encoded btoa_ok). f_equal.
  pose proof (Hnet (callOf (baseUrl this ++ endpoint) verb body encoded)) as Hfetch.
  assert (Hok : ok r = true) by (unfold ok; rewrite Hs; reflexivity).
  request_answered r Hfetch Hok.
  rewrite Hs. reflexivity.
Qed.

(** The four operations that return [response.results] throw a
    [TypeError], and no error of the taxonomy, when the server answers
    204 No Content; the tool that lists the ancestors of a page then
    reports that error. *)
Theorem results_operations_reject_no_content (r : Response)
  (pageId blogPostId : string) (labels : JsValue) :
  alwaysAnswers r -> status r = 204 ->
  fst (run (getPageAncestors this pageId)) = Throw (ThrownError typeErrorMessage)
  /\ fst (run (getPageOperations this pageId)) = Throw (ThrownError typeErrorMessage)
  /\ fst (run (addPageLabels this pageId labels))
     = Throw (ThrownError typeErrorMessage)
  /\ fst (run (addBlogPostLabels this blogPostId labels))
     = Throw (ThrownError typeErrorMessage)
  /\ fst (run (confluence_get_page_ancestors this pageId))
     = Return (formatError (ThrownError typeErrorMessage)).
Proof.
  intros Hnet Hs.
  unfold confluence_get_page_ancestors, handler, tryCatch,
    getPageAncestors, getPageOperations, addPageLabels, addBlogPostLabels,
    emptyInit, writeInit, run, bind.
  pose proof (fun e v b => request_no_content e v b r Hnet Hs) as Hreq.
  unfold run in Hreq. rewrite !Hreq. repeat split.
Qed.

End SuccessFacts.

(** ** More tool handlers *)

Section MoreToolFacts.

Context {runtime : Runtime} {errors : Errors} {renderers : Renderers}
  {runtimeErrors : RuntimeErrors}.

Variable client : ConfluenceClientImpl.

(** The connection test tool never reports an error: whatever the request
    does, its answer is the record of [testConnection] as JSON, a failed
    connection being [connected: false] in a result that is no error. *)
Theorem test_connection_tool_never_errors (log : list FetchCall) :
  exists status,
    fst (confluence_test_connection client log)
    = Return {| content :=
                  [JSON_stringify_indent2
                     (JObject [("connected", JBool (connected status));
                               ("message", JString (message status))])];
                isError := false |}
    /\ fst (testConnection client log) = Return status
    /\ (connected status = false
        <-> exists t, fst (request client "/spaces?limit=1" emptyInit false log)
                      = Throw t).
Proof.
  unfold confluence_test_connection, testConnection, tryCatch, bind.
  destruct (request client "/spaces?limit=1" emptyInit false log) as [[v|t] log'];
    cbn.
  - exists {| connected := true; message := "Successfully connected to Confluence" |}.
    repeat split; try discriminate. intros [t H]. discriminate H.
  - exists {| connected := false; message := messageOr t "Connection failed" |}.
    repeat split. eauto.
Qed.

Variable encoded : string.
Hypothesis btoa_ok : btoa (plainCredentials client) = Some encoded.

(** A comment needs a page or a blog post: with neither (absent or empty)
    the tool answers with an error and sends nothing; with one of them it
    makes one POST to [/comments] of the resource base. *)
Theorem create_comment_requires_target (pageId blogPostId parentCommentId : option string)
  (body bodyRepresentation : string) :
  if truthyOpt pageId || truthyOpt blogPostId
  then
    snd (run (confluence_create_comment client pageId blogPostId parentCommentId
                body bodyRepresentation))
    = [callOf (baseUrl client ++ "/comments") (Some "POST")
         (Some (JSON_stringify
            (JObject [("pageId", optionalString pageId);
                      ("blogPostId", optionalString blogPostId);
                      ("parentCommentId", optionalString parentCommentId);
                      ("body", contentBody bodyRepresentation body)])))
         encoded]
  else
    run (confluence_create_comment client pageId blogPostId parentCommentId
           body bodyRepresentation)
    = (Return
         {| content :=
              [JSON_stringify_indent2
                 (JObject [("error",
                            JString "Either pageId or blogPostId is required")])];
            isError := true |},
       []).
Proof.
  unfold confluence_create_comment.
  destruct (truthyOpt pageId), (truthyOpt blogPostId); cbn [negb andb orb];
    try reflexivity;
    rewrite handler_log; unfold createComment, writeInit;
    rewrite (request_log client encoded btoa_ok); reflexivity.
Qed.

(** [confluence_list_pages], for a limit within the bounds of its schema,
    sends as the query of one GET to [/pages] exactly the filters it was
    given, in the order space, status, title, body format, then the limit,
    then the cursor if given; the body format goes under the name
    [body-format]. *)
Theorem list_pages_sends_given_filters (spaceId status title bodyFormat : option string)
  (lim : Z) (cursor : option string) (format : ResponseFormat) :
  bodyFormat <> Some "" ->
  1 <= lim <= 250 ->
  exists q,
    snd (run (confluence_list_pages client spaceId status title bodyFormat lim
                cursor format))
    = [callOf (baseUrl client ++ "/pages?" ++ q) None None encoded]
    /\ parseQuery q
       = (optionalEntry "spaceId" spaceId ++ optionalEntry "status" status
          ++ optionalEntry "title" title ++ optionalEntry "body-format" bodyFormat
          ++ [("limit", stringOfZ lim)] ++ optionalEntry "cursor" cursor)%list.
Proof.
  intros Hbf _.
  unfold confluence_list_pages. rewrite handler_log. unfold listPages, emptyInit.
  cbv zeta. rewrite (request_log client encoded btoa_ok).
  assert (Hb : forall f, bodyFormat = Some f -> truthyString f = true).
  { intros [|c f] ->; [congruence|reflexivity]. }
  destruct spaceId, status, title, bodyFormat as [f|], cursor;
    try (specialize (Hb f eq_refl));
    (rewrite buildQueryString_nodup;
     [|cbn; rewrite ?Hb; cbn; repeat constructor; cbn; intuition discriminate]);
    cbn; rewrite ?Hb; cbn [map fst snd];
    eexists; (split; [reflexivity|]);
    match goal with
    | |- parseQuery ?x = ?l => change x with (searchParamsToString l)
    end; apply parseQuery_searchParamsToString.
Qed.

End MoreToolFacts.

Section DeleteFacts.

Context {runtime : Runtime} {errors : Errors} {renderers : Renderers}
  {runtimeErrors : RuntimeErrors}.

Variable client : ConfluenceClientImpl.
Variable encoded : string.
Hypothesis btoa_ok : btoa (plainCredentials client) = Some encoded.

Lemma delete_request_succeeds (endpoint : string) (r : Response) :
  alwaysAnswers r -> succeeds r = true ->
  exists v,
    request client endpoint
      {| method := Some "DELETE"; headers := None; body := None |} false []
    = (Return v, [callOf (baseUrl client ++ endpoint) (Some "DELETE") None encoded]).
Proof.
  intros Hnet Hs.
  exact (request_run_returns client encoded btoa_ok endpoint (Some "DELETE") None
           false r (Hnet _) Hs).
Qed.

(** The delete tools of blog posts, attachments and custom content send
    one DELETE with [?purge=true] appended exactly when [purge] is set; on
    success the first two say "moved to trash" or "permanently deleted",
    and the tool for custom content says "Custom content deleted" in both
    cases. *)
Theorem delete_tools_purge_toggle (id : string) (purge : bool) (r : Response) :
  alwaysAnswers r -> succeeds r = true ->
  run (confluence_delete_blogpost client id purge)
  = (Return (messageResponse
               ("Blog post " ++ id
                ++ (if purge then " permanently deleted" else " moved to trash"))),
     [callOf (baseUrl client ++ "/blogposts/" ++ id ++ purgeQuery purge)
        (Some "DELETE") None encoded])
  /\ run (confluence_delete_attachment client id purge)
     = (Return (messageResponse
                  ("Attachment " ++ id
                   ++ (if purge then " permanently deleted" else " moved to trash"))),
        [callOf (baseUrl client ++ "/attachments/" ++ id ++ purgeQuery purge)
           (Some "DELETE") None encoded])
  /\ run (confluence_delete_custom_content client id purge)
     = (Return (messageResponse "Custom content deleted"),
        [callOf (baseUrl client ++ "/custom-content/" ++ id ++ purgeQuery purge)
           (Some "DELETE") None encoded]).
Proof.
  intros Hnet Hs.
  pose proof (fun e => delete_request_succeeds e r Hnet Hs) as Hreq.
  unfold confluence_delete_blogpost, confluence_delete_attachment,
    confluence_delete_custom_content, handler, tryCatch,
    deleteBlogPost, deleteAttachment, deleteCustomContent, bind, run.
  cbv zeta. fold (purgeQuery purge).
  destruct (Hreq ("/blogposts/" ++ id ++ purgeQuery purge)) as [v1 H1].
  destruct (Hreq ("/attachments/" ++ id ++ purgeQuery purge)) as [v2 H2].
  destruct (Hreq ("/custom-content/" ++ id ++ purgeQuery purge)) as [v3 H3].
  rewrite H1, H2, H3. cbn.
  destruct purge; repeat split.
Qed.

End DeleteFacts.

(** ** Environment values *)

Lemma digitsPrefix_cons (acc : option Z) (c : ascii) (rest : string) :
  isDigit c = true ->
  digitsPrefix acc (String c rest)
  = digitsPrefix
      (Some (10 * match acc with Some a => a | None => 0 end
             + Z.of_N (N_of_ascii c) - 48)) rest.
Proof. intros H. cbn [digitsPrefix]. rewrite H. reflexivity. Qed.

Ltac read_digit IH :=
  cbn [NilEmpty.string_of_uint Pos.of_uint_acc];
  rewrite digitsPrefix_cons by reflexivity;
  match goal with
  | |- context [Z.of_N (N_of_ascii ?c)] =>
      let v := eval vm_compute in (Z.of_N (N_of_ascii c)) in
      change (Z.of_N (N_of_ascii c)) with v
  end;
  match goal with
  | |- digitsPrefix (Some ?x) _ = Some (Z.pos (Pos.of_uint_acc _ ?y)) =>
      replace x with (Z.pos y) by lia
  end;
  apply IH.

(** The digits written for a decimal number are read back with the value
    carried so far. *)
Lemma digitsPrefix_string_of_uint (d : Decimal.uint) (acc : positive) :
  digitsPrefix (Some (Z.pos acc)) (NilEmpty.string_of_uint d)
  = Some (Z.pos (Pos.of_uint_acc d acc)).
Proof.
  revert acc. induction d; intros acc; [reflexivity|..]; read_digit IHd.
Qed.

Lemma digitsPrefix_from_zero (d : Decimal.uint) :
  digitsPrefix (Some 0) (NilEmpty.string_of_uint d) = Some (Z.of_N (Pos.of_uint d)).
Proof.
  induction d; [reflexivity| |..];
    cbn [NilEmpty.string_of_uint Pos.of_uint];
    rewrite digitsPrefix_cons by reflexivity;
    match goal with
    | |- context [Z.of_N (N_of_ascii ?c)] =>
        let v := eval vm_compute in (Z.of_N (N_of_ascii c)) in
        change (Z.of_N (N_of_ascii c)) with v
    end; cbn [Z.mul Z.add Z.sub Z.opp Z.pos_sub Pos.add Pos.succ Z.of_N
              Pos.pred_double Z.double Z.succ_double Z.pred_double];
    first [exact IHd | apply digitsPrefix_string_of_uint].
Qed.

Lemma digitsPrefix_from_none (d : Decimal.uint) :
  d <> Decimal.Nil ->
  digitsPrefix None (NilEmpty.string_of_uint d) = Some (Z.of_N (Pos.of_uint d)).
Proof.
  intros Hd. rewrite <- digitsPrefix_from_zero.
  destruct d; [congruence|..];
    cbn [NilEmpty.string_of_uint]; rewrite !digitsPrefix_cons by reflexivity;
    reflexivity.
Qed.

Lemma parseInt10_digit (c : ascii) (rest : string) :
  isDigit c = true ->
  parseInt10 (String c rest)
  = match digitsPrefix None (String c rest) with
    | Some n => Int n
    | None => NaN
    end.
Proof.
  destruct c as [[] [] [] [] [] [] [] []]; intros H; try discriminate H;
    unfold parseInt10; cbn [skipWhiteSpace];
    match goal with
    | |- context [isWhiteSpace ?c] =>
        let v := eval vm_compute in (isWhiteSpace c) in
        change (isWhiteSpace c) with v
    end; lazy beta iota zeta;
    destruct (digitsPrefix None _) as [n|]; try reflexivity;
    f_equal; lia.
Qed.

Lemma parseInt10_minus_digit (c : ascii) (rest : string) :
  isDigit c = true ->
  parseInt10 (String "-" (String c rest))
  = match digitsPrefix None (String c rest) with
    | Some n => Int (- n)
    | None => NaN
    end.
Proof.
  intros H. unfold parseInt10. cbn [skipWhiteSpace].
  change (isWhiteSpace "-") with false. lazy beta iota zeta.
  destruct (digitsPrefix None _) as [n|]; first [reflexivity | f_equal; lia].
Qed.

Lemma string_of_uint_head (d : Decimal.uint) :
  d <> Decimal.Nil ->
  exists c rest, NilEmpty.string_of_uint d = String c rest /\ isDigit c = true.
Proof.
  destruct d; [congruence|..]; intros _; do 2 eexists; split; reflexivity.
Qed.

(** Reading the decimal text of an integer gives the integer. *)
Lemma parseInt10_stringOfZ (z : Z) : parseInt10 (stringOfZ z) = Int z.
Proof.
  unfold stringOfZ. destruct z as [|p|p]; [reflexivity| |].
  - cbn [Z.to_int NilZero.string_of_int].
    pose proof (DecimalPos.Unsigned.to_uint_nonnil p) as Hn.
    destruct (string_of_uint_head _ Hn) as (c & rest & Hs & Hc).
    assert (Hz : NilZero.string_of_uint (Pos.to_uint p)
                 = NilEmpty.string_of_uint (Pos.to_uint p)).
    { destruct (Pos.to_uint p); [congruence|..]; reflexivity. }
    rewrite Hz, Hs, parseInt10_digit by exact Hc.
    rewrite <- Hs, digitsPrefix_from_none by exact Hn.
    rewrite DecimalPos.Unsigned.of_to. reflexivity.
  - cbn [Z.to_int NilZero.string_of_int].
    pose proof (DecimalPos.Unsigned.to_uint_nonnil p) as Hn.
    destruct (string_of_uint_head _ Hn) as (c & rest & Hs & Hc).
    assert (Hz : NilZero.string_of_uint (Pos.to_uint p)
                 = NilEmpty.string_of_uint (Pos.to_uint p)).
    { destruct (Pos.to_uint p); [congruence|..]; reflexivity. }
    rewrite Hz, Hs, parseInt10_minus_digit by exact Hc.
    rewrite <- Hs, digitsPrefix_from_none by exact Hn.
    rewrite DecimalPos.Unsigned.of_to. reflexivity.
Qed.

(** [getEnvNumber] never gives [NaN] for a default that is a number: a
    value that is the decimal text of a safe integer gives that integer,
    and a value that is missing, no text, empty or an ASCII text starting
    with no number gives the default. *)
Theorem getEnvNumber_number_or_default (env : Env) (key : EnvKey) (d : Z) :
  getEnvNumber env key (Int d) <> NaN
  /\ (forall n, isSafeInteger n -> env key = JString (stringOfZ n) ->
      getEnvNumber env key (Int d) = Int n)
  /\ ((forall s, env key <> JString s) -> getEnvNumber env key (Int d) = Int d)
  /\ (forall s, allChars isAsciiChar s = true ->
      env key = JString s -> parseInt10 s = NaN ->
      getEnvNumber env key (Int d) = Int d)
  /\ (env key = JString "" -> getEnvNumber env key (Int d) = Int d).
Proof.
  unfold getEnvNumber. repeat split.
  - destruct (env key); try discriminate. destruct (parseInt10 s); discriminate.
  - intros n _ ->. rewrite parseInt10_stringOfZ. reflexivity.
  - intros H. destruct (env key); try reflexivity. exfalso. eapply H. reflexivity.
  - intros s _ -> ->. reflexivity.
  - intros ->. reflexivity.
Qed.

(** A page size read from the environment. *)
Example getEnvNumber_examples :
  let env := fun key =>
    match key with
    | DEFAULT_PAGE_SIZE => JString "50"
    | MAX_PAGE_SIZE => JString "lots"
    | CHARACTER_LIMIT => JString "100 000"
    | _ => JUndefined
    end in
  getDefaultPageSize env = Int 50
  /\ getMaxPageSize env = Int 250
  /\ getCharacterLimit env = Int 100
  /\ getCharacterLimit (fun _ => JUndefined) = Int 50000.
Proof. repeat split. Qed.


(** ** The worker *)

Lemma validate_parsed_fails_iff (h : Headers) :
  (exists msg, validateCredentials (parseTenantCredentials h) = inl msg)
  <-> lacksCredentials h.
Proof.
  unfold lacksCredentials.
  set (c := parseTenantCredentials h).
  pose proof (validateCredentials_cases c) as Hcases.
  pose proof (truthyOpt_parsed_cloudId h) as Hcloud. fold c in Hcloud.
  rewrite <- (orString_empty (h "X-Confluence-Domain")),
    <- (orString_empty (h "X-Confluence-Email")),
    <- (orString_empty (h "X-Confluence-API-Token")),
    <- (orUndefined_none (h "X-Confluence-Cloud-ID")).
  change (orString (h "X-Confluence-Domain") "") with (domain c).
  change (orString (h "X-Confluence-Email") "") with (email c).
  change (orString (h "X-Confluence-API-Token") "") with (apiToken c).
  change (orUndefined (h "X-Confluence-Cloud-ID")) with (cloudId c).
  rewrite <- Hcloud, <- !truthyString_false.
  split.
  - intros [msg Hmsg].
    destruct Hcases as [(?&?&?)|[(?&?&?)|[(?&?&?&?)|(?&?&?&Hok)]]];
      try tauto.
    rewrite Hok in Hmsg. discriminate.
  - intros Hmissing.
    destruct Hcases as [(?&?&?)|[(?&?&?)|[(?&?&?&?)|(Hd'&He'&Ht'&Hok)]]];
      eauto.
    exfalso. destruct Hmissing as [[Hn1 Hn2]|[Hn|Hn]]; try congruence.
    destruct Hd'; congruence.
Qed.

(** Validation is the gate in front of the MCP server: the worker hands a
    request to it only when the request is a POST to [/mcp] whose parsed
    credentials pass validation, and it answers a POST to [/mcp] with 401
    and the message of the validation exactly when a required header is
    absent or empty. *)
Theorem worker_validates_before_mcp {runtime : Runtime} (request : WorkerRequest) :
  let c := parseTenantCredentials (requestHeaders request) in
  (forall c', workerFetch request = HandleMcp c' ->
     pathname request = "/mcp" /\ requestMethod request = "POST"
     /\ c' = c /\ validateCredentials c = inr tt)
  /\ (pathname request = "/mcp" -> requestMethod request = "POST" ->
      ((exists msg,
          validateCredentials c = inl msg
          /\ workerFetch request
             = Respond 401 (Some "application/json")
                 (JSON_stringify (unauthorizedBody msg)))
       <-> lacksCredentials (requestHeaders request))
      /\ (~ lacksCredentials (requestHeaders request) ->
          workerFetch request = HandleMcp c))
  /\ (forall contentType body,
        workerFetch request = Respond 401 contentType body ->
        pathname request = "/mcp" /\ requestMethod request = "POST"
        /\ lacksCredentials (requestHeaders request)).
Proof.
  intros c. unfold workerFetch. fold c.
  pose proof (validate_parsed_fails_iff (requestHeaders request)) as Hiff.
  fold c in Hiff.
  destruct (String.eqb_spec (pathname request) "/health") as [Hh|Hh].
  { repeat split; try discriminate; try congruence. }
  destruct (String.eqb_spec (pathname request) "/mcp") as [Hp|Hp];
    [destruct (String.eqb_spec (requestMethod request) "POST") as [Hm|Hm]|];
    cbn [andb].
  - destruct (validateCredentials c) as [msg|[]] eqn:Hv.
    + split; [discriminate|]. split.
      * intros _ _. split.
        -- split; [intros _; apply Hiff; eauto|].
           intros _. exists msg. split; reflexivity.
        -- intros Hn. exfalso. apply Hn, Hiff. eauto.
      * intros ct b _. repeat split; try assumption. apply Hiff. eauto.
    + split.
      * intros c' H. inversion H. auto.
      * split.
        -- intros _ _. split.
           ++ split.
              ** intros (msg & Hm' & _). discriminate Hm'.
              ** intros Hl. apply Hiff in Hl. destruct Hl as [msg Hm'].
                 discriminate Hm'.
           ++ reflexivity.
        -- discriminate.
  - destruct (String.eqb_spec (pathname request) "/sse");
      repeat split; try discriminate; try congruence.
  - destruct (String.eqb_spec (pathname request) "/sse");
      repeat split; try discriminate; try congruence.
Qed.

(** The health check and the server description need no credentials, and
    the other paths never reach the MCP server: [/health] is answered 200
    whatever the method and the headers, [/sse] 501, and every other
    request that is no POST to [/mcp] gets the description of the server. *)
Theorem worker_routes_without_credentials {runtime : Runtime} (request : WorkerRequest) :
  (pathname request = "/health" ->
   workerFetch request
   = Respond 200 (Some "application/json")
       (JSON_stringify (JObject [("status", JString "ok");
                                 ("server", JString "primrose-mcp-confluence")])))
  /\ (pathname request = "/sse" ->
      workerFetch request
      = Respond 501 None
          "SSE endpoint requires Durable Objects. Use /mcp endpoint instead.")
  /\ (pathname request <> "/health" -> pathname request <> "/sse" ->
      (pathname request <> "/mcp" \/ requestMethod request <> "POST") ->
      workerFetch request
      = Respond 200 (Some "application/json") (JSON_stringify serverInfo)).
Proof.
  unfold workerFetch. repeat split.
  - intros ->. reflexivity.
  - intros ->. reflexivity.
  - intros Hh Hs Hm.
    apply String.eqb_neq in Hh, Hs. rewrite Hh, Hs.
    destruct Hm as [Hm|Hm]; apply String.eqb_neq in Hm; rewrite Hm;
      rewrite ?andb_false_r; reflexivity.
Qed.

(** ** Search and rate limits *)

Section SearchFacts.

Context {runtime : Runtime}.

Variable this : ConfluenceClientImpl.
Variable encoded : string.
Hypothesis btoa_ok : btoa (plainCredentials this) = Some encoded.

(** [search], for a limit that is a safe integer, makes one GET to
    [/search] of the legacy base whose query reads back as: the query text
    under [cql], unchanged whatever characters it holds; then [limit]
    unless it is missing or zero;
    [cursor] unless it is missing or empty; [excerpt] unless it is
    missing, also when it is [false]. *)
Theorem search_query_reads_back (cql : string) (params : option SearchParams) :
  match params with
  | Some {| limit := Some n |} => isSafeInteger n
  | _ => True
  end ->
  exists q,
    snd (run (search this cql params))
    = [callOf (searchBaseUrl this ++ "/search?" ++ q) None None encoded]
    /\ parseQuery q = searchEntries cql params.
Proof.
  intros _.
  unfold search, emptyInit. rewrite (request_log this encoded btoa_ok).
  eexists. split; [reflexivity|].
  rewrite parseQuery_searchParamsToString.
  unfold searchEntries.
  destruct params as [[[n|] [c|] [e|]]|]; cbn;
    repeat match goal with
           | |- context [?n =? 0] => destruct (n =? 0)
           | |- context [truthyString ?c] => destruct (truthyString c)
           end; reflexivity.
Qed.

(** A rate-limited answer whose [Retry-After] header is the decimal text
    of a number of seconds (a safe integer) throws the rate-limit error
    with that number. *)
Theorem rate_limit_carries_header_seconds (endpoint : string) (verb body : option string)
  (useSearchApi : bool) (r : Response) (seconds : Z) :
  fetch (callOf (baseFor this useSearchApi ++ endpoint) verb body encoded) = Resolved r ->
  status r = 429 ->
  isSafeInteger seconds ->
  responseHeaders r "Retry-After" = Some (stringOfZ seconds) ->
  fst (run (request this endpoint
              {| method := verb; headers := None; body := body |} useSearchApi))
  = Throw (ThrownApi (RateLimitError "Rate limit exceeded" (Int seconds))).
Proof.
  intros Hfetch Hs _ Hh.
  unfold run, request, bind, getAuthHeaders, awaitFetch.
  fold (plainCredentials this). rewrite btoa_ok. cbn.
  match goal with
  | |- context [fetch ?c] =>
      change c with (callOf (baseFor this useSearchApi ++ endpoint) verb body encoded)
  end.
  rewrite Hfetch. cbn [fst]. rewrite Hs. cbn. rewrite Hh.
  assert (Ht : truthyString (stringOfZ seconds) = true).
  { pose proof (parseInt10_stringOfZ seconds) as Hp.
    destruct (stringOfZ seconds); [discriminate Hp|reflexivity]. }
  rewrite Ht, parseInt10_stringOfZ. reflexivity.
Qed.

End SearchFacts.

(** A query text with characters that mean something in a URL. *)
Lemma search_query_reads_back_witness :
  let rt := sampleRuntime (fun _ => Resolved (plainResponse 200 "{}"))
              (fun _ => Some (JObject [])) 0 in
  exists q,
    snd (run (search (runtime := rt) sampleClient "title ~ a&limit=999#x"
                (Some {| limit := Some 10; cursor := Some ""; excerpt := Some false |})))
    = [callOf ("https://acme.atlassian.net/wiki/rest/api" ++ "/search?" ++ q)
         None None "ann@acme.test:secret"]
    /\ parseQuery q
       = [("cql", "title ~ a&limit=999#x"); ("limit", "10"); ("excerpt", "false")].
Proof.
  intros rt.
  exact (@search_query_reads_back rt sampleClient "ann@acme.test:secret" eq_refl
           "title ~ a&limit=999#x"
           (Some {| limit := Some 10; cursor := Some ""; excerpt := Some false |})
           ltac:(unfold isSafeInteger; lia)).
Defined.

(** Two minutes. *)
Lemma rate_limit_carries_header_seconds_witness :
  let rt := sampleRuntime
              (fun _ => Resolved
                 {| status := 429;
                    responseHeaders := fun name =>
                      if String.eqb name "Retry-After" then Some "120" else None;
                    bodyText := "" |})
              (fun _ => None) 0 in
  fst (run (request (runtime := rt) sampleClient "/pages" emptyInit false))
  = Throw (ThrownApi (RateLimitError "Rate limit exceeded" (Int 120))).
Proof.
  intros rt.
  exact (@rate_limit_carries_header_seconds rt sampleClient "ann@acme.test:secret"
           eq_refl "/pages" None None false _ 120 eq_refl eq_refl
           ltac:(unfold isSafeInteger; lia) eq_refl).
Defined.

(** ** Escaping in the search tools *)




(** ** Examples for the theorems above *)

(** A 200 answer whose body is no JSON throws a syntax error. *)
Lemma request_success_result_witness :
  let rt := sampleRuntime (fun _ => Resolved (plainResponse 200 "<html>"))
              (fun _ => None) 0 in
  fst (run (request (runtime := rt) sampleClient "/spaces" emptyInit false))
  = Throw (ThrownError "Unexpected token").
Proof.
  intros rt.
  exact (@request_success_result rt sampleClient "ann@acme.test:secret" eq_refl
           "/spaces" None None false (plainResponse 200 "<html>") eq_refl eq_refl).
Defined.

(** The ancestors of a page when the server answers 204. *)
Lemma results_operations_reject_no_content_witness :
  fst (run (getPageAncestors (runtime := noContentRuntime)
              (runtimeErrors := sampleRuntimeErrors) sampleClient "98765"))
  = Throw (ThrownError "Cannot read properties of undefined").
Proof.
  destruct (@results_operations_reject_no_content noContentRuntime sampleErrors
              sampleRenderers sampleRuntimeErrors sampleClient "ann@acme.test:secret"
              eq_refl (plainResponse 204 "") "98765" "4711" (JArray [])
              (fun _ => eq_refl) eq_refl) as (H & _).
  exact H.
Defined.

(** A comment with no page and an empty blog post id. *)
Lemma create_comment_requires_target_witness :
  run (confluence_create_comment (runtime := noContentRuntime) (errors := sampleErrors)
         (renderers := sampleRenderers) sampleClient None (Some "") None
         "<p>Nice</p>" "storage")
  = (Return
       {| content :=
            [printJson (JObject [("error",
                                  JString "Either pageId or blogPostId is required")])];
          isError := true |},
     []).
Proof.
  exact (@create_comment_requires_target noContentRuntime sampleErrors sampleRenderers
           sampleClient "ann@acme.test:secret" eq_refl None (Some "") None
           "<p>Nice</p>" "storage").
Defined.

(** The pages of a space in storage format, 25 a page. *)
Lemma list_pages_sends_given_filters_witness :
  let rt := sampleRuntime (fun _ => Resolved (plainResponse 200 "{}"))
              (fun _ => Some (JObject [("results", JArray [])])) 0 in
  exists q,
    snd (run (confluence_list_pages (runtime := rt) (errors := sampleErrors)
                (renderers := sampleRenderers) sampleClient
                (Some "65538") None None (Some "storage") 25 None FormatJson))
    = [callOf ("https://acme.atlassian.net/wiki/api/v2" ++ "/pages?" ++ q) None None
         "ann@acme.test:secret"]
    /\ parseQuery q
       = [("spaceId", "65538"); ("body-format", "storage"); ("limit", "25")].
Proof.
  intros rt.
  exact (@list_pages_sends_given_filters rt sampleErrors sampleRenderers sampleClient
           "ann@acme.test:secret" eq_refl (Some "65538") None None (Some "storage")
           25 None FormatJson ltac:(discriminate) ltac:(lia)).
Defined.

(** Purging a custom content: the address says so, the message does not. *)
Lemma delete_tools_purge_toggle_witness :
  run (confluence_delete_custom_content (runtime := noContentRuntime)
         (errors := sampleErrors) (renderers := sampleRenderers) sampleClient
         "4711" true)
  = (Return
       {| content :=
            [printJson (JObject [("success", JBool true);
                                 ("message", JString "Custom content deleted")])];
          isError := false |},
     [callOf "https://acme.atlassian.net/wiki/api/v2/custom-content/4711?purge=true"
        (Some "DELETE") None "ann@acme.test:secret"]).
Proof.
  destruct (@delete_tools_purge_toggle noContentRuntime sampleErrors sampleRenderers
              sampleClient "ann@acme.test:secret" eq_refl "4711" true
              (plainResponse 204 "") (fun _ => eq_refl) eq_refl) as (_ & _ & H).
  exact H.
Defined.

(** ** Display labels *)

Lemma trimEnd_endsClean (s : string) : endsClean s = true -> trimEnd s = s.
Proof.
  induction s as [|c s IH]; [reflexivity|].
  destruct s as [|d s'].
  - simpl. intros H. apply negb_true_iff in H. rewrite H. reflexivity.
  - intros H. change (endsClean (String c (String d s'))) with (endsClean (String d s')) in H.
    specialize (IH H).
    change (trimEnd (String c (String d s')))
      with (match trimEnd (String d s') with
            | EmptyString => if isWhiteSpace c then EmptyString else String c EmptyString
            | String d0 rest' => String c (String d0 rest')
            end).
    rewrite IH. reflexivity.
Qed.

Lemma insertSpaces_endsClean (x : ascii) (key : string) :
  isWhiteSpace x = false ->
  allChars (fun c => negb (isWhiteSpace c)) key = true ->
  endsClean (String x (insertSpaces key)) = true.
Proof.
  revert x. induction key as [|c key IH]; intros x Hx Hkey.
  - simpl. rewrite Hx. reflexivity.
  - simpl in Hkey. apply andb_prop in Hkey as [Hc Hkey].
    apply negb_true_iff in Hc.
    cbn [insertSpaces]. destruct (isUpper c).
    + change (endsClean (String x (String " " (String c (insertSpaces key)))))
        with (endsClean (String c (insertSpaces key))).
      apply IH; assumption.
    + change (endsClean (String x (String c (insertSpaces key))))
        with (endsClean (String c (insertSpaces key))).
      apply IH; assumption.
Qed.

Lemma toUpperCase_facts (c : ascii) :
  isWhiteSpace c = false ->
  isWhiteSpace (toUpperCase c) = false
  /\ isLineTerminator c = false
  /\ (isUpper c = true -> toUpperCase c = c).
Proof.
  destruct c as [[] [] [] [] [] [] [] []]; intros H; try discriminate H;
    repeat split; intros H'; try discriminate H'; reflexivity.
Qed.

(** For a key of ASCII characters with no white space in it, [formatKey]
    gives the key with its first character in upper case and a space
    before every later capital letter, and nothing else changes: no
    character is lost. *)
Theorem formatKey_spaces_before_capitals (c : ascii) (rest : string) :
  allChars isAsciiChar (String c rest) = true ->
  allChars (fun a => negb (isWhiteSpace a)) (String c rest) = true ->
  formatKey (String c rest) = String (toUpperCase c) (insertSpaces rest).
Proof.
  intros _ H. simpl in H. apply andb_prop in H as [Hc Hrest].
  apply negb_true_iff in Hc.
  destruct (toUpperCase_facts c Hc) as (Hu & Hl & Hup).
  unfold formatKey, trim. cbn [insertSpaces].
  destruct (isUpper c) eqn:Hupper.
  - cbn [upperFirst]. change (isLineTerminator " ") with false. cbv iota.
    change (toUpperCase " ") with " "%char.
    cbn [skipWhiteSpace]. change (isWhiteSpace " ") with true. cbv iota.
    rewrite Hc. rewrite trimEnd_endsClean by (apply insertSpaces_endsClean; assumption).
    rewrite Hup by reflexivity. reflexivity.
  - cbn [upperFirst]. rewrite Hl. cbn [skipWhiteSpace]. rewrite Hu.
    apply trimEnd_endsClean. apply insertSpaces_endsClean; assumption.
Qed.

(** The labels of some properties of a page. *)
Lemma formatKey_spaces_before_capitals_witness :
  formatKey "spaceId" = "Space Id".
Proof.
  exact (formatKey_spaces_before_capitals "s" "paceId" eq_refl eq_refl).
Defined.

Example formatKey_examples :
  formatKey "createdAt" = "Created At"
  /\ formatKey "ID" = "I D"
  /\ formatKey "_links" = "_links"
  /\ formatKey "" = "".
Proof. repeat split. Qed.
